(** * Provenance: signing and verifying chart archives

    A shallow embedding of [pkg/provenance/sign.go] (package [provenance]
    of Helm) and of the caller in [cmd/helm/package.go].

    Go strings and byte slices are sequences of bytes and are both
    embedded as [string].  A Go function returning [(v, err)] returns a
    pair whose second component is an [option error], [None] being the
    nil error.  Every function runs in the monad [M], which records the
    calls made to the operating system and to the libraries, and in
    which a nil dereference ends the run with [Panic]. *)

From stdpp Require Import gmap strings list.
From Stdlib Require Import Ascii String.

Local Open Scope string_scope.
Local Open Scope list_scope.

(** ** Bytes and strings of the Go standard library *)

(** The line feed, written ["\n"] in Go. *)
Definition LFc : ascii := ascii_of_nat 10.

Definition LF : string := String LFc "".

(** [strings.HasPrefix(s, prefix)]. *)
Fixpoint strings_HasPrefix (s prefix : string) {struct prefix} : bool :=
  match prefix with
  | "" => true
  | String p prefix' =>
      match s with
      | "" => false
      | String c s' => Ascii.eqb c p && strings_HasPrefix s' prefix'
      end
  end.

(** [strings.HasSuffix(s, suffix)]: some tail of [s] is [suffix]. *)
Fixpoint strings_HasSuffix (s suffix : string) : bool :=
  String.eqb s suffix ||
  match s with
  | "" => false
  | String _ s' => strings_HasSuffix s' suffix
  end.

(** [strings.Contains(s, substr)]: [substr] starts at some index of [s]. *)
Fixpoint strings_Contains (s substr : string) : bool :=
  strings_HasPrefix s substr ||
  match s with
  | "" => false
  | String _ s' => strings_Contains s' substr
  end.

(** [bytes.Split(s, sep)] for a non-empty [sep]: the pieces of [s]
    between the occurrences of [sep], found from the left and not
    overlapping.  [skip] counts the bytes of a separator still to be
    passed over, [cur] is the piece being read. *)
Fixpoint split_from (sep : string) (skip : nat) (cur s : string) : list string :=
  match s with
  | "" => [cur]
  | String c s' =>
      match skip with
      | S k => split_from sep k cur s'
      | O =>
          if strings_HasPrefix s sep
          then cur :: split_from sep (String.length sep - 1) "" s'
          else split_from sep 0 (cur +:+ String c "") s'
      end
  end.

Definition bytes_Split (s sep : string) : list string := split_from sep 0 "" s.

(** [filepath.Base(path)] on a system whose separator is ['/']: trailing
    separators are dropped, then everything up to the last separator. *)
Definition is_separator (c : ascii) : bool := Ascii.eqb c "/"%char.

Fixpoint drop_separators (l : list ascii) : list ascii :=
  match l with
  | c :: l' => if is_separator c then drop_separators l' else l
  | [] => []
  end.

Fixpoint take_element (l : list ascii) : list ascii :=
  match l with
  | c :: l' => if is_separator c then [] else c :: take_element l'
  | [] => []
  end.

Definition filepath_Base (path : string) : string :=
  if String.eqb path "" then "."
  else
    let last :=
      string_of_list_ascii
        (rev (take_element (drop_separators (rev (list_ascii_of_string path))))) in
    if String.eqb last "" then "/" else last.

(** [hex.EncodeToString(src)]: two lowercase digits for every byte. *)
Definition hextable : list ascii := list_ascii_of_string "0123456789abcdef".

Definition hex_digit (n : nat) : ascii := nth n hextable "0"%char.

Fixpoint hex_EncodeToString (src : string) : string :=
  match src with
  | "" => ""
  | String c src' =>
      String (hex_digit (nat_of_ascii c / 16))
        (String (hex_digit (nat_of_ascii c mod 16)) (hex_EncodeToString src'))
  end.

(** ** Errors, events and the monad *)

Inductive errno := ENOENT | EACCES | EISDIR | ENOSPC.

(** Go error values.  [fmt.Errorf] keeps its format and its arguments
    as they are passed; [fmt_Errorf_wrap] is the call whose one argument
    is an error.  [lib_error] is an error made inside a library. *)
Inductive error :=
  | errors_New (text : string)
  | fmt_Errorf (format : string) (a : list string)
  | fmt_Errorf_wrap (format : string) (cause : error)
  | os_PathError (Op Path : string) (Err : errno)
  | lib_error (pkg text : string).

(** The calls a run makes outside the package, in the order made. *)
Inductive event :=
  | ev_Stat (name : string)
  | ev_Open (name : string)
  | ev_Read (name : string)
  | ev_SHA256 (data : string)
  | ev_LoadFile (name : string)
  | ev_yaml_Marshal
  | ev_yaml_Unmarshal (data : string)
  | ev_clearsign_Encode
  | ev_clearsign_Write (data : string)
  | ev_clearsign_Close
  | ev_clearsign_Decode
  | ev_CheckDetachedSignature
  | ev_ReadKeyRing
  | ev_Fprintln (text : string)
  | ev_WriteFile (name : string).

(** Events that only look a path up. *)
Definition is_stat (e : event) : bool :=
  match e with ev_Stat _ => true | _ => false end.

Inductive outcome (A : Type) :=
  | Ret (a : A)
  | Panic (reason : string).
Arguments Ret {A} a.
Arguments Panic {A} reason.

Definition M (A : Type) : Type := list event * outcome A.

#[global] Instance M_ret : MRet M := fun A a => ([], Ret a).

#[global] Instance M_bind : MBind M := fun A B f m =>
  match m.2 with
  | Panic reason => (m.1, Panic reason)
  | Ret a => (m.1 ++ (f a).1, (f a).2)
  end.

Definition emit (e : event) : M unit := ([e], Ret tt).

Definition panic {A : Type} (reason : string) : M A := ([], Panic reason).

Definition nil_dereference : string :=
  "runtime error: invalid memory address or nil pointer dereference".

(** Reading through a pointer: a nil pointer panics. *)
Definition deref {A : Type} (p : option A) : M A :=
  match p with
  | Some a => mret a
  | None => panic nil_dereference
  end.

Definition trace {A : Type} (m : M A) : list event := m.1.
Definition result {A : Type} (m : M A) : outcome A := m.2.

(** ** The file system *)

(** A path names a directory or a regular file; the flag of a regular
    file tells whether the process may open it for reading. *)
Inductive node :=
  | Directory
  | RegularFile (readable : bool) (data : string).

Record FileInfo := { IsDir : bool }.

Record File := { file_name : string; file_node : node }.

(** What the paths and their nodes do not tell and a write depends on:
    the right to write, the directory the file is in, the room left on
    the disk.  A write may fail when the file is opened (nothing is
    changed), while the data are written (the file holds the bytes
    written so far) or when the file is closed. *)
Inductive write_fault :=
  | open_fails (e : errno)
  | write_fails (written : nat) (e : errno)
  | close_fails (e : errno).

Section FileSystem.
Variable fs : gmap string node.

(** [os.Stat(name)]. *)
Definition os_Stat (name : string) : M (option FileInfo * option error) :=
  _ ← emit (ev_Stat name);
  mret match fs !! name with
       | None => (None, Some (os_PathError "stat" name ENOENT))
       | Some Directory => (Some {| IsDir := true |}, None)
       | Some (RegularFile _ _) => (Some {| IsDir := false |}, None)
       end.

(** [os.Open(name)]: a directory opens like a file. *)
Definition os_Open (name : string) : M (option File * option error) :=
  _ ← emit (ev_Open name);
  mret match fs !! name with
       | None => (None, Some (os_PathError "open" name ENOENT))
       | Some (RegularFile false _) => (None, Some (os_PathError "open" name EACCES))
       | Some n => (Some {| file_name := name; file_node := n |}, None)
       end.

(** Reading an open file to its end: the bytes delivered and the
    error that stopped the reading, if any.  A directory delivers
    nothing and fails with EISDIR. *)
Definition read_all (f : File) : M (string * option error) :=
  _ ← emit (ev_Read (file_name f));
  mret match file_node f with
       | Directory => ("", Some (os_PathError "read" (file_name f) EISDIR))
       | RegularFile _ data => (data, None)
       end.

(** [ioutil.ReadFile(filename)]. *)
Definition ioutil_ReadFile (filename : string) : M (string * option error) :=
  '(f, err) ← os_Open filename;
  match err with
  | Some e => mret ("", Some e)
  | None =>
      f ← deref f;
      '(data, err) ← read_all f;
      match err with
      | Some e => mret ("", Some e)
      | None => mret (data, None)
      end
  end.

(** [ioutil.WriteFile(filename, data, perm)]: the file is opened for
    writing, made if it is missing and emptied if it is there; the
    data are written; the file is closed.  The error is that of the
    first step that fails, and what was written before stays in the
    file.  A directory cannot be opened for writing.  A file that was
    there keeps its mode; a new one has the mode of the call, which
    lets its owner read it.  [fault] is what goes wrong at this write,
    if anything. *)
Definition ioutil_WriteFile (fault : option write_fault) (filename data : string)
  : M (gmap string node * option error) :=
  _ ← emit (ev_WriteFile filename);
  mret match fs !! filename with
       | Some Directory => (fs, Some (os_PathError "open" filename EISDIR))
       | old =>
           let readable :=
             match old with Some (RegularFile r _) => r | _ => true end in
           match fault with
           | Some (open_fails e) => (fs, Some (os_PathError "open" filename e))
           | Some (write_fails n e) =>
               (<[ filename := RegularFile readable (substring 0 n data) ]> fs,
                Some (os_PathError "write" filename e))
           | Some (close_fails e) =>
               (<[ filename := RegularFile readable data ]> fs,
                Some (os_PathError "close" filename e))
           | None => (<[ filename := RegularFile readable data ]> fs, None)
           end
       end.
End FileSystem.

(** ** Data of the package and of the libraries it calls *)

(** [hapi.Metadata], the record of [Chart.yaml].
    Modelled from the spec: the declaration is generated code outside
    the package; the package only passes the record on. *)
Record Metadata := {
  Name : string;
  Version : string;
  Description : string
}.

(** [hapi.Chart]: only its metadata is read here. *)
Record Chart := { Chart_Metadata : Metadata }.

(** [crypto.Hash] and [packet.Config]. *)
Inductive crypto_Hash := crypto_SHA256 | crypto_SHA512.

Record packet_Config := { DefaultHash : crypto_Hash }.

Definition defaultPGPConfig : packet_Config := {| DefaultHash := crypto_SHA512 |}.

(** [packet.PublicKey], [packet.PrivateKey] and [openpgp.Entity].
    [Identities] lists the keys of the Go map in the order in which one
    [range] over it visits them; Go leaves that order open. *)
Record PublicKey := { KeyId : string }.

Record PrivateKey := { PrivateKey_PublicKey : PublicKey; Encrypted : bool }.

Record Entity := {
  PrimaryKey : PublicKey;
  Entity_PrivateKey : option PrivateKey;
  Identities : list string
}.

Abbreviation EntityList := (list Entity).

(** [clearsign.Block] with the armor block that carries the signature. *)
Record armor_Block := { Body : string }.

Record clearsign_Block := {
  Plaintext : string;
  Bytes : string;
  ArmoredSignature : armor_Block
}.

(** SumCollection represents a collection of file and image checksums.
    A nil Go map reads like the empty map. *)
Record SumCollection := {
  Files : gmap string string;
  Images : gmap string string
}.

(** Verification contains information about a verification operation. *)
Record Verification := {
  SignedBy : option Entity;
  FileHash : string
}.

(** Signatory signs things. *)
Record Signatory := {
  Signatory_Entity : option Entity;
  KeyRing : EntityList
}.

(** The libraries the package is linked with, as the functions the
    package calls.  [clearsign_Encode], [clearsign_Write] and
    [clearsign_Close] give the text each call appends to the output
    buffer of the writer; the writer itself is the key, the
    configuration and the text written so far. *)
Class Env := {
  SHA256_Sum : string → string;
  chartutil_LoadArchive : string → option Chart * option error;
  yaml_Marshal_Metadata : Metadata → string * option error;
  yaml_Marshal_SumCollection : SumCollection → string * option error;
  yaml_Unmarshal_Metadata : string → Metadata * option error;
  yaml_Unmarshal_SumCollection : string → SumCollection * option error;
  clearsign_Encode : PrivateKey → packet_Config → string * option error;
  clearsign_Write : PrivateKey → packet_Config → string → string → string * option error;
  clearsign_Close : PrivateKey → packet_Config → string → string * option error;
  clearsign_Decode : string → option clearsign_Block * string;
  openpgp_CheckDetachedSignature :
    EntityList → string → string → option Entity * option error;
  openpgp_ReadKeyRing : string → EntityList * option error
}.

(** The separator of the message block, ["\n...\n"]. *)
Definition separator : string := LF +:+ "..." +:+ LF.

Section Provenance.
Context `{env : Env}.
Variable fs : gmap string node.

(** Modelled from the spec: [chartutil.LoadFile(name)] belongs to package
    [chartutil], which is not among the files at hand.  The metadata is
    read out of the archive itself: the file is opened and read, and
    its bytes are parsed by the library ([chartutil_LoadArchive]). *)
Definition chartutil_LoadFile (name : string) : M (option Chart * option error) :=
  _ ← emit (ev_LoadFile name);
  mret match fs !! name with
       | None => (None, Some (os_PathError "stat" name ENOENT))
       | Some Directory => (None, Some (errors_New "cannot load a directory"))
       | Some (RegularFile false _) => (None, Some (os_PathError "open" name EACCES))
       | Some (RegularFile true data) => chartutil_LoadArchive data
       end.

(** sumArchive calculates a SHA256 hash (like Docker) for a given file. *)
Definition sumArchive (filename : string) : M (string * option error) :=
  '(f, err) ← os_Open fs filename;
  match err with
  | Some e => mret ("", Some e)
  | None =>
      f ← deref f;
      (* io.Copy(hash, f): the error of the copy is dropped *)
      '(written, _) ← read_all f;
      _ ← emit (ev_SHA256 written);
      mret (hex_EncodeToString (SHA256_Sum written), None)
  end.

(** The second half of messageBlock, from [yaml.Marshal(chart.Metadata)]
    on: the metadata, the separator and the sums written to a buffer. *)
Definition messageBlock_buffer (md : Metadata) (sums : SumCollection)
  : M (option string * option error) :=
  (* Buffer a hash + checksums YAML file *)
  _ ← emit ev_yaml_Marshal;
  let '(data, err) := yaml_Marshal_Metadata md in
  match err with
  | Some e => mret (None, Some e)
  | None =>
      let b := data +:+ separator in
      _ ← emit ev_yaml_Marshal;
      let '(data, err) := yaml_Marshal_SumCollection sums in
      match err with
      | Some e => mret (Some b, Some e)
      | None => mret (Some (b +:+ data), None)
      end
  end.

Definition messageBlock (chartpath : string) : M (option string * option error) :=
  (* Checksum the archive *)
  '(chash, err) ← sumArchive chartpath;
  match err with
  | Some e => mret (None, Some e)
  | None =>
      let base := filepath_Base chartpath in
      let sums := {| Files := {[ base := "sha256:" +:+ chash ]}; Images := ∅ |} in
      (* Load the archive into memory. *)
      '(chart, err) ← chartutil_LoadFile chartpath;
      match err with
      | Some e => mret (None, Some e)
      | None =>
          chart ← deref chart;
          messageBlock_buffer (Chart_Metadata chart) sums
      end
  end.

Definition parseMessageBlock (data : string)
  : M (option Metadata * option SumCollection * option error) :=
  let md := {| Name := ""; Version := ""; Description := "" |} in
  let sc := {| Files := ∅; Images := ∅ |} in
  match bytes_Split data separator with
  | part0 :: part1 :: _ =>
      _ ← emit (ev_yaml_Unmarshal part0);
      let '(md, err) := yaml_Unmarshal_Metadata part0 in
      match err with
      | Some e => mret (Some md, Some sc, Some e)
      | None =>
          _ ← emit (ev_yaml_Unmarshal part1);
          let '(sc, err) := yaml_Unmarshal_SumCollection part1 in
          mret (Some md, Some sc, err)
      end
  | _ =>
      (* len(parts) < 2 *)
      mret (None, None, Some (errors_New "message block must have at least two parts"))
  end.

Definition loadKeyRing (ringpath : string) : M (EntityList * option error) :=
  '(f, err) ← os_Open fs ringpath;
  match err with
  | Some e => mret ([], Some e)
  | None =>
      f ← deref f;
      '(data, err) ← read_all f;
      _ ← emit ev_ReadKeyRing;
      match err with
      | Some e => mret ([], Some e)
      | None => mret (openpgp_ReadKeyRing data)
      end
  end.

(** The two nested [range] loops of NewFromKeyring.  A loop ends either
    by the [return] at an exact match, with the entity found, or by
    running out, with [candidate] and [vague] as it leaves them. *)
Fixpoint scanIdentities (id : string) (e : Entity) (names : list string)
    (candidate : option Entity) (vague : bool) : Entity + option Entity * bool :=
  match names with
  | [] => inr (candidate, vague)
  | n :: names' =>
      if String.eqb n id then inl e
      else if strings_Contains n id
      then scanIdentities id e names' (Some e)
             (match candidate with Some _ => true | None => vague end)
      else scanIdentities id e names' candidate vague
  end.

Fixpoint scanRing (id : string) (ring : EntityList)
    (candidate : option Entity) (vague : bool) : Entity + option Entity * bool :=
  match ring with
  | [] => inr (candidate, vague)
  | e :: ring' =>
      match scanIdentities id e (Identities e) candidate vague with
      | inl found => inl found
      | inr (candidate', vague') => scanRing id ring' candidate' vague'
      end
  end.

(** NewFromKeyring reads a keyring file and creates a Signatory. *)
Definition NewFromKeyring (keyringfile id : string) : M (option Signatory * option error) :=
  '(ring, err) ← loadKeyRing keyringfile;
  match err with
  | Some e => mret (None, Some e)
  | None =>
      let s := {| Signatory_Entity := None; KeyRing := ring |} in
      (* If the ID is empty, we can return now. *)
      if String.eqb id "" then mret (Some s, None)
      else
        match scanRing id ring None false with
        | inl e => mret (Some {| Signatory_Entity := Some e; KeyRing := ring |}, None)
        | inr (candidate, vague) =>
            if vague
            then mret (Some s, Some (fmt_Errorf "more than one key contain the id %q" [id]))
            else mret (Some {| Signatory_Entity := candidate; KeyRing := ring |}, None)
        end
  end.

(** ClearSign signs a chart with the given key. *)
Definition ClearSign (s : Signatory) (chartpath : string) : M (string * option error) :=
  (* s.Entity.PrivateKey reads through s.Entity *)
  ent ← deref (Signatory_Entity s);
  match Entity_PrivateKey ent with
  | None => mret ("", Some (errors_New "private key not found"))
  | Some key =>
      '(fi, err) ← os_Stat fs chartpath;
      match err with
      | Some e => mret ("", Some e)
      | None =>
          fi ← deref fi;
          if IsDir fi then mret ("", Some (errors_New "cannot sign a directory"))
          else
            '(b, err) ← messageBlock chartpath;
            match err with
            | Some _ => mret ("", None)
            | None =>
                (* Sign the buffer *)
                _ ← emit ev_clearsign_Encode;
                let '(header, err) := clearsign_Encode key defaultPGPConfig in
                match err with
                | Some e => mret ("", Some e)
                | None =>
                    b ← deref b;
                    _ ← emit (ev_clearsign_Write b);
                    let '(body, err) := clearsign_Write key defaultPGPConfig "" b in
                    _ ← emit ev_clearsign_Close;
                    (* w.Close(): its error is dropped *)
                    let '(trailer, _) := clearsign_Close key defaultPGPConfig b in
                    mret (header +:+ body +:+ trailer, err)
                end
            end
      end
  end.

Definition decodeSignature (filename : string) : M (option clearsign_Block * option error) :=
  '(data, err) ← ioutil_ReadFile fs filename;
  match err with
  | Some e => mret (None, Some e)
  | None =>
      _ ← emit ev_clearsign_Decode;
      let '(block, _) := clearsign_Decode data in
      match block with
      | None =>
          (* There was no sig in the file. *)
          mret (None, Some (errors_New "signature block not found"))
      | Some _ => mret (block, None)
      end
  end.

(** verifySignature verifies that the given block is validly signed, and
    returns the signer. *)
Definition verifySignature (s : Signatory) (block : option clearsign_Block)
  : M (option Entity * option error) :=
  block ← deref block;
  _ ← emit ev_CheckDetachedSignature;
  mret (openpgp_CheckDetachedSignature (KeyRing s) (Bytes block)
          (Body (ArmoredSignature block))).

(** The loop of Verify over the two paths: the first error met. *)
Fixpoint Verify_files (fnames : list string) : M (option error) :=
  match fnames with
  | [] => mret None
  | fname :: fnames' =>
      '(fi, err) ← os_Stat fs fname;
      match err with
      | Some e => mret (Some e)
      | None =>
          fi ← deref fi;
          if IsDir fi then mret (Some (fmt_Errorf "%s cannot be a directory" [fname]))
          else Verify_files fnames'
      end
  end.

(** Verify checks a signature and verifies that it is legit for a chart. *)
Definition Verify (s : Signatory) (chartpath sigpath : string)
  : M (Verification * option error) :=
  let ver := {| SignedBy := None; FileHash := "" |} in
  err ← Verify_files [chartpath; sigpath];
  match err with
  | Some e => mret (ver, Some e)
  | None =>
      (* First verify the signature *)
      '(sig, err) ← decodeSignature sigpath;
      match err with
      | Some e => mret (ver, Some (fmt_Errorf_wrap "failed to decode signature: %s" e))
      | None =>
          '(by_, err) ← verifySignature s sig;
          match err with
          | Some e => mret (ver, Some e)
          | None =>
              let ver := {| SignedBy := by_; FileHash := FileHash ver |} in
              (* Second, verify the hash of the tarball. *)
              '(sum, err) ← sumArchive chartpath;
              match err with
              | Some e => mret (ver, Some e)
              | None =>
                  sig ← deref sig;
                  '(_, sums, err) ← parseMessageBlock (Plaintext sig);
                  match err with
                  | Some e => mret (ver, Some e)
                  | None =>
                      let sum := "sha256:" +:+ sum in
                      let basename := filepath_Base chartpath in
                      sums ← deref sums;
                      match Files sums !! basename with
                      | None =>
                          mret (ver, Some (fmt_Errorf
                            "provenance does not contain a SHA for a file named %q"
                            [basename]))
                      | Some sha =>
                          if negb (String.eqb sha sum)
                          then mret (ver, Some (fmt_Errorf
                                 "sha256 sum does not match for %s: %q != %q"
                                 [basename; sha; sum]))
                          else mret ({| SignedBy := SignedBy ver; FileHash := sum |}, None)
                      end
                  end
              end
          end
      end
  end.
End Provenance.

(** ** A reference environment

    Small, executable stand-ins for the libraries: SHA-256 as
    FIPS 180-4 defines it, a line-oriented subset of YAML, and a clear
    signature whose signature packet names the key and the digest of
    the signed text.  They serve to run the package on concrete files. *)

Local Open Scope Z_scope.

Definition add32 (x y : Z) : Z := (x + y) mod 4294967296.

Definition rotr (n x : Z) : Z :=
  Z.lor (Z.shiftr x n) (Z.shiftl x (32 - n) mod 4294967296).

Definition sha_Ch (x y z : Z) : Z :=
  Z.lxor (Z.land x y) (Z.land (Z.lxor x 4294967295) z).

Definition sha_Maj (x y z : Z) : Z :=
  Z.lxor (Z.lxor (Z.land x y) (Z.land x z)) (Z.land y z).

Definition big_sigma0 (x : Z) : Z := Z.lxor (Z.lxor (rotr 2 x) (rotr 13 x)) (rotr 22 x).
Definition big_sigma1 (x : Z) : Z := Z.lxor (Z.lxor (rotr 6 x) (rotr 11 x)) (rotr 25 x).
Definition small_sigma0 (x : Z) : Z := Z.lxor (Z.lxor (rotr 7 x) (rotr 18 x)) (Z.shiftr x 3).
Definition small_sigma1 (x : Z) : Z := Z.lxor (Z.lxor (rotr 17 x) (rotr 19 x)) (Z.shiftr x 10).

(** The fractional parts of the cube roots of the first 64 primes and
    of the square roots of the first 8. *)
Definition sha_K : list Z :=
  [1116352408; 1899447441; 3049323471; 3921009573; 961987163; 1508970993;
   2453635748; 2870763221; 3624381080; 310598401; 607225278; 1426881987;
   1925078388; 2162078206; 2614888103; 3248222580; 3835390401; 4022224774;
   264347078; 604807628; 770255983; 1249150122; 1555081692; 1996064986;
   2554220882; 2821834349; 2952996808; 3210313671; 3336571891; 3584528711;
   113926993; 338241895; 666307205; 773529912; 1294757372; 1396182291;
   1695183700; 1986661051; 2177026350; 2456956037; 2730485921; 2820302411;
   3259730800; 3345764771; 3516065817; 3600352804; 4094571909; 275423344;
   430227734; 506948616; 659060556; 883997877; 958139571; 1322822218;
   1537002063; 1747873779; 1955562222; 2024104815; 2227730452; 2361852424;
   2428436474; 2756734187; 3204031479; 3329325298].

Definition sha_H0 : list Z :=
  [1779033703; 3144134277; 1013904242; 2773480762; 1359893119; 2600822924;
   528734635; 1541459225].

Definition be_bytes (n : nat) (x : Z) : list Z :=
  map (fun i => Z.shiftr x (8 * Z.of_nat i) mod 256) (rev (seq 0 n)).

Definition sha_pad (msg : list Z) : list Z :=
  let len := Z.of_nat (List.length msg) in
  msg ++ [128] ++ repeat 0 (Z.to_nat ((55 - len) mod 64)) ++ be_bytes 8 (8 * len).

Fixpoint be_words (bs : list Z) : list Z :=
  match bs with
  | a :: b :: c :: d :: bs' => (((a * 256 + b) * 256 + c) * 256 + d) :: be_words bs'
  | _ => []
  end.

(** The message schedule, latest word first. *)
Fixpoint sha_schedule (n : nat) (w : list Z) : list Z :=
  match n with
  | O => w
  | S n' =>
      sha_schedule n'
        (add32 (add32 (small_sigma1 (nth 1 w 0)) (nth 6 w 0))
               (add32 (small_sigma0 (nth 14 w 0)) (nth 15 w 0)) :: w)
  end.

Definition sha_round (st : list Z) (kw : Z * Z) : list Z :=
  match st with
  | [a; b; c; d; e; f; g; h] =>
      let t1 := add32 (add32 (add32 h (big_sigma1 e)) (sha_Ch e f g)) (add32 kw.1 kw.2) in
      let t2 := add32 (big_sigma0 a) (sha_Maj a b c) in
      [add32 t1 t2; a; b; c; add32 d t1; e; f; g]
  | _ => st
  end.

Definition sha_compress (h block : list Z) : list Z :=
  let w := rev (sha_schedule 48 (rev block)) in
  zip_with add32 h (fold_left sha_round (zip sha_K w) h).

Fixpoint sha_blocks (fuel : nat) (h ws : list Z) : list Z :=
  match fuel, ws with
  | S fuel', _ :: _ => sha_blocks fuel' (sha_compress h (firstn 16 ws)) (skipn 16 ws)
  | _, _ => h
  end.

Definition bytes_of_string (s : string) : list Z :=
  map (fun c => Z.of_nat (nat_of_ascii c)) (list_ascii_of_string s).

Definition string_of_bytes (bs : list Z) : string :=
  string_of_list_ascii (map (fun b => ascii_of_nat (Z.to_nat b)) bs).

Definition sha256 (msg : string) : string :=
  let ws := be_words (sha_pad (bytes_of_string msg)) in
  string_of_bytes (List.concat (map (be_bytes 4) (sha_blocks (List.length ws) sha_H0 ws))).

Local Close Scope Z_scope.

(** A chart archive of the reference environment holds the name, the
    version and the description of the chart, one a line. *)
Definition demo_LoadArchive (data : string) : option Chart * option error :=
  match bytes_Split data LF with
  | [n; v; d] =>
      (Some {| Chart_Metadata := {| Name := n; Version := v; Description := d |} |}, None)
  | _ => (None, Some (lib_error "chartutil" "chart metadata (Chart.yaml) missing"))
  end.

Definition yaml_line (k v : string) : string := k +:+ ": " +:+ v +:+ LF.

Definition demo_Marshal_Metadata (md : Metadata) : string * option error :=
  (yaml_line "description" (Description md) +:+ yaml_line "name" (Name md)
     +:+ yaml_line "version" (Version md), None).

Definition demo_Marshal_SumCollection (sc : SumCollection) : string * option error :=
  let entry (kv : string * string) := "  " +:+ yaml_line kv.1 kv.2 in
  let section (title : string) (m : gmap string string) :=
    title +:+ LF +:+ String.concat "" (map entry (map_to_list m)) in
  (section "files:" (Files sc) +:+
   (if decide (Images sc = ∅) then "" else section "images:" (Images sc)), None).

Definition yaml_error : error := lib_error "yaml" "did not find expected key".

Fixpoint demo_Metadata_lines (lines : list string) (md : Metadata)
  : Metadata * option error :=
  match lines with
  | [] => (md, None)
  | l :: lines' =>
      match bytes_Split l ": " with
      | [""] => demo_Metadata_lines lines' md
      | [k; v] =>
          demo_Metadata_lines lines'
            (if String.eqb k "name"
             then {| Name := v; Version := Version md; Description := Description md |}
             else if String.eqb k "version"
             then {| Name := Name md; Version := v; Description := Description md |}
             else if String.eqb k "description"
             then {| Name := Name md; Version := Version md; Description := v |}
             else md)
      | _ => (md, Some yaml_error)
      end
  end.

Definition demo_Unmarshal_Metadata (data : string) : Metadata * option error :=
  demo_Metadata_lines (bytes_Split data LF)
    {| Name := ""; Version := ""; Description := "" |}.

Fixpoint demo_SumCollection_lines (lines : list string) (images : bool)
    (sc : SumCollection) : SumCollection * option error :=
  match lines with
  | [] => (sc, None)
  | l :: lines' =>
      if String.eqb l "" then demo_SumCollection_lines lines' images sc
      else if String.eqb l "files:" then demo_SumCollection_lines lines' false sc
      else if String.eqb l "images:" then demo_SumCollection_lines lines' true sc
      else
        match bytes_Split l ": " with
        | [String " " (String " " k); v] =>
            demo_SumCollection_lines lines' images
              (if images
               then {| Files := Files sc; Images := <[ k := v ]> (Images sc) |}
               else {| Files := <[ k := v ]> (Files sc); Images := Images sc |})
        | _ => (sc, Some yaml_error)
        end
  end.

Definition demo_Unmarshal_SumCollection (data : string) : SumCollection * option error :=
  demo_SumCollection_lines (bytes_Split data LF) false {| Files := ∅; Images := ∅ |}.

Definition demo_header : string :=
  "-----BEGIN PGP SIGNED MESSAGE-----" +:+ LF +:+ "Hash: SHA512" +:+ LF +:+ LF.

Definition demo_signature_begin : string := "-----BEGIN PGP SIGNATURE-----" +:+ LF +:+ LF.

Definition demo_signature_end : string := LF +:+ "-----END PGP SIGNATURE-----" +:+ LF.

Definition demo_Encode (key : PrivateKey) (_ : packet_Config) : string * option error :=
  if Encrypted key then ("", Some (lib_error "openpgp" "signing key is encrypted"))
  else (demo_header, None).

Definition demo_Write (_ : PrivateKey) (_ : packet_Config) (_ p : string)
  : string * option error := (p, None).

Definition demo_Close (key : PrivateKey) (_ : packet_Config) (written : string)
  : string * option error :=
  (demo_signature_begin +:+ KeyId (PrivateKey_PublicKey key) +:+ " "
     +:+ hex_EncodeToString (sha256 written) +:+ demo_signature_end, None).

Fixpoint string_drop (n : nat) (s : string) : string :=
  match n, s with
  | S n', String _ s' => string_drop n' s'
  | _, _ => s
  end.

Definition demo_Decode (data : string) : option clearsign_Block * string :=
  if strings_HasPrefix data demo_header then
    match bytes_Split (string_drop (String.length demo_header) data) demo_signature_begin with
    | [text; tail] =>
        match bytes_Split tail demo_signature_end with
        | sig :: rest :: _ =>
            (Some {| Plaintext := text; Bytes := text;
                     ArmoredSignature := {| Body := sig |} |}, rest)
        | _ => (None, data)
        end
    | _ => (None, data)
    end
  else (None, data).

Definition demo_CheckDetachedSignature (ring : EntityList) (signed signature : string)
  : option Entity * option error :=
  match bytes_Split signature " " with
  | [kid; digest] =>
      match find (fun e => String.eqb (KeyId (PrimaryKey e)) kid) ring with
      | None => (None, Some (lib_error "openpgp" "signature made by unknown entity"))
      | Some e =>
          if String.eqb digest (hex_EncodeToString (sha256 signed))
          then (Some e, None)
          else (None, Some (lib_error "openpgp" "invalid signature: hash tag does not match"))
      end
  | _ => (None, Some (lib_error "openpgp" "invalid argument: signature packet"))
  end.

(** A keyring of the reference environment has a line for every key:
    the key id, [sec] or [pub], and the identities separated by [|]. *)
Fixpoint demo_keyring_lines (lines : list string) : EntityList * option error :=
  match lines with
  | [] => ([], None)
  | l :: lines' =>
      if String.eqb l "" then demo_keyring_lines lines'
      else
        match bytes_Split l ":" with
        | [kid; kind; ids] =>
            let pk := {| KeyId := kid |} in
            let e := {| PrimaryKey := pk;
                        Entity_PrivateKey :=
                          if String.eqb kind "sec"
                          then Some {| PrivateKey_PublicKey := pk; Encrypted := false |}
                          else None;
                        Identities := bytes_Split ids "|" |} in
            match demo_keyring_lines lines' with
            | (ring, None) => (e :: ring, None)
            | (_, Some err) => ([], Some err)
            end
        | _ => ([], Some (lib_error "openpgp" "invalid data: tag byte does not have MSB set"))
        end
  end.

Definition demo_ReadKeyRing (data : string) : EntityList * option error :=
  demo_keyring_lines (bytes_Split data LF).

Definition demo : Env := {|
  SHA256_Sum := sha256;
  chartutil_LoadArchive := demo_LoadArchive;
  yaml_Marshal_Metadata := demo_Marshal_Metadata;
  yaml_Marshal_SumCollection := demo_Marshal_SumCollection;
  yaml_Unmarshal_Metadata := demo_Unmarshal_Metadata;
  yaml_Unmarshal_SumCollection := demo_Unmarshal_SumCollection;
  clearsign_Encode := demo_Encode;
  clearsign_Write := demo_Write;
  clearsign_Close := demo_Close;
  clearsign_Decode := demo_Decode;
  openpgp_CheckDetachedSignature := demo_CheckDetachedSignature;
  openpgp_ReadKeyRing := demo_ReadKeyRing
|}.

(** The files of the examples: a chart archive, a copy of it that lost
    its read permission, a directory, and a keyring with two keys. *)
Definition demo_chart : string :=
  "mychart" +:+ LF +:+ "0.1.0" +:+ LF +:+ "A Helm chart for Kubernetes".

Definition demo_keys : string :=
  "5E615389B53CA37F:sec:Helm Testing (This key should only be used for testing. DO NOT TRUST.) <helm-testing@helm.sh>"
  +:+ LF +:+
  "9C3B7D5A21E0F4A6:pub:Alice Foo <alice@example.com>|Alice Foo (work) <alice@example.org>"
  +:+ LF.

Definition demo_fs : gmap string node :=
  {[ "charts/mychart-0.1.0.tgz" := RegularFile true demo_chart;
     "charts/locked-0.1.0.tgz" := RegularFile false demo_chart;
     "charts/mychart" := Directory;
     "pubring.gpg" := RegularFile true demo_keys ]}.

(** ** Notions the properties are stated with *)

(** The digest of an archive as Verify reports it: the SHA-256 sum of
    the bytes of the archive in hexadecimal, after the tag [sha256:]. *)
Definition archive_sum `{env : Env} (data : string) : string :=
  "sha256:" +:+ hex_EncodeToString (SHA256_Sum data).

(** The sums messageBlock records for an archive. *)
Definition archive_sums `{env : Env} (chartpath data : string) : SumCollection :=
  {| Files := {[ filepath_Base chartpath := archive_sum data ]}; Images := ∅ |}.

(** The message block of a serialized metadata and serialized sums. *)
Definition block_of (mdb scb : string) : string := (mdb +:+ separator) +:+ scb.

(** ** Notions for the lookup of NewFromKeyring *)

(** An identity of [e] is [id] itself. *)
Definition has_exact (id : string) (e : Entity) : bool :=
  existsb (λ n, String.eqb n id) (Identities e).

(** The identities of [e] that contain [id], and their number over a
    keyring. *)
Definition matching_labels (id : string) (e : Entity) : list string :=
  filter (λ n, strings_Contains n id = true) (Identities e).

Definition matching_entities (id : string) (ring : EntityList) : EntityList :=
  filter (λ e, matching_labels id e ≠ []) ring.

Fixpoint count_matching_labels (id : string) (ring : EntityList) : nat :=
  match ring with
  | [] => 0
  | e :: ring' => List.length (matching_labels id e) + count_matching_labels id ring'
  end.

(** The state of the loops after [k] more matching labels of [e]. *)
Definition after_matches (e : Entity) (k : nat) (candidate : option Entity) (vague : bool)
  : option Entity * bool :=
  match k with
  | 0 => (candidate, vague)
  | 1 => (Some e, match candidate with Some _ => true | None => vague end)
  | _ => (Some e, true)
  end.

(** A path that names a regular file. *)
Definition is_regular (fs : gmap string node) (name : string) : Prop :=
  ∃ r data, fs !! name = Some (RegularFile r data).

(** A signatory carries a private key when it has a signing identity
    and that identity has a private key. *)
Definition carries_private_key (s : Signatory) : bool :=
  match Signatory_Entity s with
  | Some e => match Entity_PrivateKey e with Some _ => true | None => false end
  | None => false
  end.

(** The keys of the keyring file, the signatory that signs with the
    first of them, and the clear signature it makes of the archive. *)
Definition helm_testing : Entity := {|
  PrimaryKey := {| KeyId := "5E615389B53CA37F" |};
  Entity_PrivateKey :=
    Some {| PrivateKey_PublicKey := {| KeyId := "5E615389B53CA37F" |};
            Encrypted := false |};
  Identities :=
    ["Helm Testing (This key should only be used for testing. DO NOT TRUST.) <helm-testing@helm.sh>"]
|}.

Definition alice : Entity := {|
  PrimaryKey := {| KeyId := "9C3B7D5A21E0F4A6" |};
  Entity_PrivateKey := None;
  Identities := ["Alice Foo <alice@example.com>"; "Alice Foo (work) <alice@example.org>"]
|}.

Definition demo_ring : EntityList := [helm_testing; alice].

Definition demo_signer : Signatory :=
  {| Signatory_Entity := Some helm_testing; KeyRing := demo_ring |}.

Definition demo_metadata : Metadata :=
  {| Name := "mychart"; Version := "0.1.0"; Description := "A Helm chart for Kubernetes" |}.

Definition demo_metadata_yaml : string :=
  "description: A Helm chart for Kubernetes" +:+ LF +:+ "name: mychart" +:+ LF
  +:+ "version: 0.1.0" +:+ LF.

Definition demo_digest : string :=
  "sha256:dbb89574884dfa92feb23be91b8b288f132c6f32dd9c248d5116e386ec5d96e0".

Definition demo_sums : SumCollection :=
  {| Files := {[ "mychart-0.1.0.tgz" := demo_digest ]}; Images := ∅ |}.

Definition demo_sums_yaml : string :=
  "files:" +:+ LF +:+ "  mychart-0.1.0.tgz: " +:+ demo_digest +:+ LF.

Definition demo_trailer : string :=
  demo_signature_begin
  +:+ "5E615389B53CA37F eee30df437dbf7f610a5a7f8f14992c426b839797d9f90c2ac007f4cc9be68bc"
  +:+ demo_signature_end.

Definition demo_signature : string :=
  demo_header +:+ block_of demo_metadata_yaml demo_sums_yaml +:+ demo_trailer.

Definition demo_block : clearsign_Block :=
  {| Plaintext := block_of demo_metadata_yaml demo_sums_yaml;
     Bytes := block_of demo_metadata_yaml demo_sums_yaml;
     ArmoredSignature :=
       {| Body := "5E615389B53CA37F eee30df437dbf7f610a5a7f8f14992c426b839797d9f90c2ac007f4cc9be68bc" |} |}.

(** The file system once the signature is stored next to the archive,
    and the same after the archive was changed. *)
Definition demo_signed_fs : gmap string node :=
  <[ "charts/mychart-0.1.0.tgz.prov" := RegularFile true demo_signature ]> demo_fs.

Definition demo_tampered_fs : gmap string node :=
  <[ "charts/mychart-0.1.0.tgz" :=
       RegularFile true ("mychart" +:+ LF +:+ "0.1.0" +:+ LF +:+ "Another chart") ]>
    demo_signed_fs.

(** The failures of Verify that come after the signature is verified:
    the archive cannot be opened to be hashed, the message block of the
    signature cannot be parsed, the sums have no entry for the archive,
    or the entry is not the sum of the archive. *)
Definition fails_after_signature `{env : Env} (fs : gmap string node) (chartpath : string)
    (block : clearsign_Block) (err : error) : Prop :=
  (∃ data, fs !! chartpath = Some (RegularFile false data) ∧
           err = os_PathError "open" chartpath EACCES) ∨
  ∃ data, fs !! chartpath = Some (RegularFile true data) ∧
    ((∃ md sums, result (parseMessageBlock (Plaintext block)) = Ret (md, sums, Some err)) ∨
     ∃ md sums,
       result (parseMessageBlock (Plaintext block)) = Ret (md, Some sums, None) ∧
       match Files sums !! filepath_Base chartpath with
       | None =>
           err = fmt_Errorf "provenance does not contain a SHA for a file named %q"
                   [filepath_Base chartpath]
       | Some sha =>
           sha ≠ archive_sum data ∧
           err = fmt_Errorf "sha256 sum does not match for %s: %q != %q"
                   [filepath_Base chartpath; sha; archive_sum data]
       end).

(** ** The claims that the code does not meet, as they are stated *)

(** Verify leaves both fields of the Verification unset when it fails. *)
Definition failure_leaves_zero_value `{env : Env} (fs : gmap string node) (s : Signatory)
    (chartpath sigpath : string) : Prop :=
  ∀ ver err,
    result (Verify fs s chartpath sigpath) = Ret (ver, Some err) →
    SignedBy ver = None ∧ FileHash ver = "".

(** ClearSign answers a directory with the error for directories,
    before it reads, hashes or signs anything. *)
Definition ClearSign_rejects_directory `{env : Env} (fs : gmap string node) (s : Signatory)
    (chartpath : string) : Prop :=
  fs !! chartpath = Some Directory →
  result (ClearSign fs s chartpath) = Ret ("", Some (errors_New "cannot sign a directory")) ∧
  Forall (λ ev, is_stat ev = true) (trace (ClearSign fs s chartpath)).

(** ** The key file and NewFromFiles *)

(** [openpgp.ReadEntity] over [packet.NewReader], as a function of the
    bytes of the key file. *)
Class KeyEnv := {
  openpgp_ReadEntity : string → option Entity * option error
}.

Section Keys.
Context `{env : Env} `{keys : KeyEnv}.
Variable fs : gmap string node.

(** loadKey loads a GPG key found at a particular path.  The events
    have no name for the parsing of the key: the run records the
    opening and the reading of the file. *)
Definition loadKey (keypath : string) : M (option Entity * option error) :=
  '(f, err) ← os_Open fs keypath;
  match err with
  | Some e => mret (None, Some e)
  | None =>
      f ← deref f;
      '(data, err) ← read_all f;
      match err with
      | Some e => mret (None, Some e)
      | None => mret (openpgp_ReadEntity data)
      end
  end.

(** NewFromFiles constructs a new Signatory from the PGP key in the
    given filename. *)
Definition NewFromFiles (keyfile keyringfile : string) : M (option Signatory * option error) :=
  '(e, err) ← loadKey keyfile;
  match err with
  | Some err => mret (None, Some err)
  | None =>
      '(ring, err) ← loadKeyRing fs keyringfile;
      match err with
      | Some err => mret (None, Some err)
      | None => mret (Some {| Signatory_Entity := e; KeyRing := ring |}, None)
      end
  end.
End Keys.

(** ** The command [helm package] of [cmd/helm/package.go] *)

(** The flags and the argument of the command.  The writer [out] of
    the Go struct is the terminal: what is printed to it is an event of
    the run. *)
Record packageCmd := {
  save : bool;
  sign : bool;
  path : string;
  key : string;
  keyring : string
}.

(** The calls of the command: those of package [provenance], and those
    to the chart utilities, to the repository and to the terminal. *)
Inductive call :=
  | call_provenance (e : event)
  | call_Abs (path : string)
  | call_LoadDir (path : string)
  | call_Getwd
  | call_Save (dir : string)
  | call_AddChartToLocalRepo (dir : string)
  | call_Printf (format : string) (a : list string).

Definition Cmd (A : Type) : Type := list call * outcome A.

#[global] Instance Cmd_ret : MRet Cmd := fun A a => ([], Ret a).

#[global] Instance Cmd_bind : MBind Cmd := fun A B f m =>
  match m.2 with
  | Panic reason => (m.1, Panic reason)
  | Ret a => let r := f a in (m.1 ++ r.1, r.2)
  end.

Definition called (c : call) : Cmd unit := ([c], Ret tt).

(** A run of package [provenance] inside the command. *)
Definition provenance {A : Type} (m : M A) : Cmd A := (map call_provenance m.1, m.2).

(** The functions of the other packages the command calls, the debug
    flag, and what goes wrong when the command writes given data to a
    given file.  [chartutil_Save] and [repo_AddChartToLocalRepo] write
    files: they give the file system they leave. *)
Class CmdEnv := {
  flagDebug : bool;
  disk_fault : string → string → option write_fault;
  filepath_Abs : string → string * option error;
  chartutil_LoadDir : gmap string node → string → option Chart * option error;
  os_Getwd : string * option error;
  chartutil_Save :
    gmap string node → Chart → string → string * option error * gmap string node;
  repo_AddChartToLocalRepo :
    gmap string node → Chart → string → option error * gmap string node;
  localRepoDirectory : string
}.

Section Package.
Context `{env : Env} `{cmdenv : CmdEnv}.

(** [packageCmd.clearsign]: the signature ClearSign returns for the
    signatory of the keyring is printed under [flagDebug] and written
    next to the archive.  The file system after the call is returned
    with the error, which is that of [ioutil.WriteFile] once the
    signature is made. *)
Definition packageCmd_clearsign (fs : gmap string node) (p : packageCmd) (filename : string)
  : M (gmap string node * option error) :=
  (* Load keyring *)
  '(signer, err) ← NewFromKeyring fs (keyring p) (key p);
  match err with
  | Some e => mret (fs, Some e)
  | None =>
      signer ← deref signer;
      '(sig, err) ← ClearSign fs signer filename;
      match err with
      | Some e => mret (fs, Some e)
      | None =>
          _ ← (if flagDebug then emit (ev_Fprintln sig) else mret tt);
          ioutil_WriteFile fs (disk_fault (filename +:+ ".prov") sig)
            (filename +:+ ".prov") sig
      end
  end.

(** [cmd.Printf] under [flagDebug]. *)
Definition debugf (format : string) (a : list string) : Cmd unit :=
  if flagDebug then called (call_Printf format a) else mret tt.

(** [packageCmd.run].  The chart [chartutil.LoadDir] returns has its
    metadata; the error of [chartutil.Save] is kept in [err] and is
    returned at the end unless signing replaces it. *)
Definition packageCmd_run (p : packageCmd) (fs : gmap string node)
  : Cmd (gmap string node * option error) :=
  _ ← called (call_Abs (path p));
  let '(path, err) := filepath_Abs (path p) in
  match err with
  | Some e => mret (fs, Some e)
  | None =>
      _ ← called (call_LoadDir path);
      let '(ch, err) := chartutil_LoadDir fs path in
      match err with
      | Some e => mret (fs, Some e)
      | None =>
          ch ← (match ch with
                | Some ch => mret ch
                | None => ([], Panic nil_dereference)
                end : Cmd Chart);
          if negb (String.eqb (filepath_Base path) (Name (Chart_Metadata ch)))
          then mret (fs, Some (fmt_Errorf
                 "directory name (%s) and Chart.yaml name (%s) must match"
                 [filepath_Base path; Name (Chart_Metadata ch)]))
          else
            (* Save to the current working directory. *)
            _ ← called call_Getwd;
            let '(cwd, err) := os_Getwd in
            match err with
            | Some e => mret (fs, Some e)
            | None =>
                _ ← called (call_Save cwd);
                let '(name, err, fs1) := chartutil_Save fs ch cwd in
                _ ← (match err with
                     | None => debugf ("Saved %s to current directory" +:+ LF) [name]
                     | Some _ => mret tt
                     end);
                (* Save to $HELM_HOME/local directory. *)
                '(stop, fs2) ←
                  (if save p then
                     _ ← called (call_AddChartToLocalRepo localRepoDirectory);
                     let '(err2, fs2) :=
                       repo_AddChartToLocalRepo fs1 ch localRepoDirectory in
                     match err2 with
                     | Some e => mret (Some e, fs2)
                     | None =>
                         _ ← debugf ("Saved %s to %s" +:+ LF) [name; localRepoDirectory];
                         mret (None, fs2)
                     end
                   else mret (None, fs1) : Cmd (option error * gmap string node));
                match stop with
                | Some e => mret (fs2, Some e)
                | None =>
                    if sign p
                    then provenance (packageCmd_clearsign fs2 p name)
                    else mret (fs2, err)
                end
            end
      end
  end.

(** The [RunE] of the command made by [newPackageCmd], for the flags
    held by [pkg] and the arguments [args]. *)
Definition packageCmd_RunE (pkg : packageCmd) (args : list string) (fs : gmap string node)
  : Cmd (gmap string node * option error) :=
  match args with
  | [] =>
      mret (fs, Some (fmt_Errorf
        "This command needs at least one argument, the path to the chart." []))
  | arg0 :: _ =>
      let pkg := {| save := save pkg; sign := sign pkg; path := arg0;
                    key := key pkg; keyring := keyring pkg |} in
      if sign pkg && String.eqb (key pkg) ""
      then mret (fs, Some (errors_New "--key is required for signing a package"))
      else if sign pkg && String.eqb (keyring pkg) ""
      then mret (fs, Some (errors_New "--keyring is required for signing a package"))
      else packageCmd_run pkg fs
  end.
End Package.

(** ** Notions for the further properties *)

(** An entity with a label that contains the name. *)
Definition labelled (id : string) (e : Entity) : Prop :=
  ∃ n, n ∈ Identities e ∧ strings_Contains n id = true.

(** ** The reference environment of the key file and of the command *)

Definition demo_ReadEntity (data : string) : option Entity * option error :=
  match demo_ReadKeyRing data with
  | (e :: _, None) => (Some e, None)
  | ([], None) => (None, Some (lib_error "openpgp" "EOF"))
  | (_, Some err) => (None, Some err)
  end.

Definition demo_keys_env : KeyEnv := {| openpgp_ReadEntity := demo_ReadEntity |}.

(** The archive of a chart in the reference environment. *)
Definition demo_archive (md : Metadata) : string :=
  Name md +:+ LF +:+ Version md +:+ LF +:+ Description md.

Definition demo_archive_name (dir : string) (md : Metadata) : string :=
  dir +:+ "/" +:+ Name md +:+ "-" +:+ Version md +:+ ".tgz".

Definition demo_Abs (path : string) : string * option error :=
  if strings_HasPrefix path "/" then (path, None) else ("/work/" +:+ path, None).

(** A chart directory holds its [Chart.yaml]. *)
Definition demo_LoadDir (fs : gmap string node) (path : string)
  : option Chart * option error :=
  match fs !! path with
  | Some Directory =>
      match fs !! (path +:+ "/Chart.yaml") with
      | Some (RegularFile true data) => demo_LoadArchive data
      | _ => (None, Some (lib_error "chartutil" "no Chart.yaml"))
      end
  | _ => (None, Some (lib_error "chartutil" "not a directory"))
  end.

Definition demo_Save (fs : gmap string node) (ch : Chart) (dir : string)
  : string * option error * gmap string node :=
  let name := demo_archive_name dir (Chart_Metadata ch) in
  (name, None, <[ name := RegularFile true (demo_archive (Chart_Metadata ch)) ]> fs).

Definition demo_AddChartToLocalRepo (fs : gmap string node) (ch : Chart) (dir : string)
  : option error * gmap string node :=
  (None, <[ demo_archive_name dir (Chart_Metadata ch) :=
              RegularFile true (demo_archive (Chart_Metadata ch)) ]> fs).

Definition demo_cmd : CmdEnv := {|
  flagDebug := false;
  disk_fault := λ _ _, None;
  filepath_Abs := demo_Abs;
  chartutil_LoadDir := demo_LoadDir;
  os_Getwd := ("/work", None);
  chartutil_Save := demo_Save;
  repo_AddChartToLocalRepo := demo_AddChartToLocalRepo;
  localRepoDirectory := "/home/helm/.helm/repository/local"
|}.

(** The same command on a disk without room: the file is made or
    emptied, and writing to it fails.  The debug flag is set. *)
Definition demo_full_disk : CmdEnv := {|
  flagDebug := true;
  disk_fault := λ _ _, Some (write_fails 0 ENOSPC);
  filepath_Abs := demo_Abs;
  chartutil_LoadDir := demo_LoadDir;
  os_Getwd := ("/work", None);
  chartutil_Save := demo_Save;
  repo_AddChartToLocalRepo := demo_AddChartToLocalRepo;
  localRepoDirectory := "/home/helm/.helm/repository/local"
|}.

(** A working directory with the chart [mychart], a directory whose
    name is not the name of its chart, a key file and the keyring. *)
Definition demo_work_fs : gmap string node :=
  {[ "/work/mychart" := Directory;
     "/work/mychart/Chart.yaml" := RegularFile true demo_chart;
     "/work/other" := Directory;
     "/work/other/Chart.yaml" := RegularFile true demo_chart;
     "secring.gpg" :=
       RegularFile true
         ("5E615389B53CA37F:sec:Helm Testing (This key should only be used for testing. DO NOT TRUST.) <helm-testing@helm.sh>"
          +:+ LF);
     "pubring.gpg" := RegularFile true demo_keys ]}.

Definition demo_package : packageCmd :=
  {| save := true; sign := true; path := ""; key := "helm-testing@helm.sh";
     keyring := "pubring.gpg" |}.

(** * Properties *)

(** ** The separator and bytes.Split *)

Lemma append_cons (c : ascii) (s t : string) : String c s +:+ t = String c (s +:+ t).
Proof. reflexivity. Qed.

Lemma append_empty_r (s : string) : s +:+ "" = s.
Proof. induction s as [|c s IH]; [reflexivity | by rewrite append_cons, IH]. Qed.

Lemma append_assoc (a b c : string) : (a +:+ b) +:+ c = a +:+ (b +:+ c).
Proof. induction a as [|x a IH]; [reflexivity | by rewrite !append_cons, IH]. Qed.

Lemma append_snoc (cur : string) (c : ascii) (s : string) :
  (cur +:+ String c "") +:+ s = cur +:+ String c s.
Proof. by rewrite append_assoc. Qed.

(** A piece without separator is one part. *)
Lemma split_from_no_separator (b cur : string) :
  strings_Contains b separator = false →
  split_from separator 0 cur b = [cur +:+ b].
Proof.
  revert cur. induction b as [|c b IH]; intros cur Hb.
  - simpl. by rewrite append_empty_r.
  - cbn [strings_Contains] in Hb. apply orb_false_iff in Hb as [Hp Hb].
    cbn [split_from]. rewrite Hp, (IH _ Hb). by rewrite append_snoc.
Qed.

Lemma separator_unfold :
  separator = String LFc (String "." (String "." (String "." (String LFc "")))).
Proof. reflexivity. Qed.

Lemma separator_starts (b : string) (cur : string) :
  split_from separator 0 cur (separator +:+ b) = cur :: split_from separator 0 "" b.
Proof. reflexivity. Qed.

(** Where a separator can start in [a] followed by a separator. *)
Lemma separator_across (a b : string) :
  strings_HasPrefix (a +:+ separator +:+ b) separator = true →
  a = "" ∨ a = LF +:+ "..." ∨ strings_HasPrefix a separator = true.
Proof.
  rewrite separator_unfold. intros H.
  destruct a as [|c0 [|c1 [|c2 [|c3 [|c4 a]]]]]; auto.
  rewrite ?append_cons in H; simpl in H.
  repeat match type of H with
         | _ && _ = true => apply andb_true_iff in H as [?%Ascii.eqb_eq H]
         end.
  subst. right; left; reflexivity.
Qed.

(** The first separator of [a] followed by a separator is the one that
    follows, when [a] has none and does not end in a line feed and
    three dots. *)
Lemma split_from_first_separator (a cur b : string) :
  strings_Contains a separator = false →
  strings_HasSuffix a (LF +:+ "...") = false →
  split_from separator 0 cur (a +:+ separator +:+ b)
  = (cur +:+ a) :: split_from separator 0 "" b.
Proof.
  revert cur. induction a as [|c a IH]; intros cur Hc Hs.
  - rewrite append_empty_r. apply separator_starts.
  - cbn [strings_Contains] in Hc. apply orb_false_iff in Hc as [Hp Hc].
    cbn [strings_HasSuffix] in Hs. apply orb_false_iff in Hs as [He Hs].
    apply String.eqb_neq in He.
    rewrite append_cons. cbn [split_from].
    destruct (strings_HasPrefix (String c (a +:+ separator +:+ b)) separator) eqn:Hx.
    + rewrite <- append_cons in Hx.
      apply separator_across in Hx as [Hx | [Hx | Hx]]; congruence.
    + rewrite (IH _ Hc Hs). by rewrite append_snoc.
Qed.

Lemma bytes_Split_block (a b : string) :
  strings_Contains a separator = false →
  strings_HasSuffix a (LF +:+ "...") = false →
  strings_Contains b separator = false →
  bytes_Split ((a +:+ separator) +:+ b) separator = [a; b].
Proof.
  intros Ha Hs Hb. unfold bytes_Split.
  rewrite append_assoc, (split_from_first_separator _ _ _ Ha Hs).
  by rewrite (split_from_no_separator _ _ Hb).
Qed.

(** ** Runs of the file system and of the package functions *)

#[local] Arguments filepath_Base : simpl never.
#[local] Arguments hex_EncodeToString : simpl never.
#[local] Arguments bytes_Split : simpl never.
#[local] Arguments sumArchive : simpl never.
#[local] Arguments messageBlock : simpl never.
#[local] Arguments parseMessageBlock : simpl never.
#[local] Arguments decodeSignature : simpl never.
#[local] Arguments Verify_files : simpl never.

Section Runs.
Context {env : Env}.
Variable fs : gmap string node.

Lemma sumArchive_regular (filename data : string) :
  fs !! filename = Some (RegularFile true data) →
  sumArchive fs filename
  = ([ev_Open filename; ev_Read filename; ev_SHA256 data],
     Ret (hex_EncodeToString (SHA256_Sum data), None)).
Proof. intros H. unfold sumArchive, os_Open. rewrite H. reflexivity. Qed.

Lemma Verify_files_regular (chartpath sigpath : string) (r1 r2 : bool) (d1 d2 : string) :
  fs !! chartpath = Some (RegularFile r1 d1) →
  fs !! sigpath = Some (RegularFile r2 d2) →
  Verify_files fs [chartpath; sigpath] = ([ev_Stat chartpath; ev_Stat sigpath], Ret None).
Proof. intros H1 H2. unfold Verify_files, os_Stat. rewrite H1, H2. reflexivity. Qed.

Lemma messageBlock_buffer_ok (md : Metadata) (sums : SumCollection) (mdb scb : string) :
  yaml_Marshal_Metadata md = (mdb, None) →
  yaml_Marshal_SumCollection sums = (scb, None) →
  messageBlock_buffer md sums
  = ([ev_yaml_Marshal; ev_yaml_Marshal], Ret (Some ((mdb +:+ separator) +:+ scb), None)).
Proof. intros H1 H2. unfold messageBlock_buffer. rewrite H1. simpl. rewrite H2. reflexivity. Qed.

Lemma parseMessageBlock_ok (mdb scb : string) (md : Metadata) (sc : SumCollection) :
  strings_Contains mdb separator = false →
  strings_HasSuffix mdb (LF +:+ "...") = false →
  strings_Contains scb separator = false →
  yaml_Unmarshal_Metadata mdb = (md, None) →
  yaml_Unmarshal_SumCollection scb = (sc, None) →
  parseMessageBlock ((mdb +:+ separator) +:+ scb)
  = ([ev_yaml_Unmarshal mdb; ev_yaml_Unmarshal scb], Ret (Some md, Some sc, None)).
Proof.
  intros Hm Hs Hc H1 H2. unfold parseMessageBlock.
  rewrite (bytes_Split_block _ _ Hm Hs Hc). simpl. rewrite H1. simpl. rewrite H2. reflexivity.
Qed.

Lemma messageBlock_trace (chartpath data : string) (chart : Chart) (mdb scb : string) :
  fs !! chartpath = Some (RegularFile true data) →
  chartutil_LoadArchive data = (Some chart, None) →
  yaml_Marshal_Metadata (Chart_Metadata chart) = (mdb, None) →
  yaml_Marshal_SumCollection
    {| Files := {[ filepath_Base chartpath :=
                     "sha256:" +:+ hex_EncodeToString (SHA256_Sum data) ]};
       Images := ∅ |} = (scb, None) →
  messageBlock fs chartpath
  = ([ev_Open chartpath; ev_Read chartpath; ev_SHA256 data; ev_LoadFile chartpath;
      ev_yaml_Marshal; ev_yaml_Marshal],
     Ret (Some ((mdb +:+ separator) +:+ scb), None)).
Proof.
  intros Hf Hl H1 H2. unfold messageBlock.
  rewrite (sumArchive_regular _ _ Hf). unfold chartutil_LoadFile. rewrite Hf, Hl. simpl.
  unfold mbind, M_bind. simpl. rewrite H1. simpl. rewrite H2. reflexivity.
Qed.

Lemma decodeSignature_ok (sigpath sig rest : string) (block : clearsign_Block) :
  fs !! sigpath = Some (RegularFile true sig) →
  clearsign_Decode sig = (Some block, rest) →
  decodeSignature fs sigpath
  = ([ev_Open sigpath; ev_Read sigpath; ev_clearsign_Decode], Ret (Some block, None)).
Proof.
  intros Hf Hd. unfold decodeSignature, ioutil_ReadFile, os_Open. rewrite Hf. simpl.
  unfold mbind, M_bind. simpl. rewrite Hd. reflexivity.
Qed.

End Runs.

(** ** Signing, then verifying *)

Section SignThenVerify.
Context {env : Env}.
Variables (fs : gmap string node) (s : Signatory) (e : Entity) (key : PrivateKey).
Variables (chartpath sigpath data : string) (chart : Chart).
Variables (mdb scb : string) (md' : Metadata).
Variables (header body trailer rest : string) (close_err : option error).
Variable block : clearsign_Block.

(** The archive is a regular file that can be read and that holds a
    chart; the signature is stored under another path. *)
Hypothesis archive_file : fs !! chartpath = Some (RegularFile true data).
Hypothesis archive_loads : chartutil_LoadArchive data = (Some chart, None).
Hypothesis other_path : sigpath ≠ chartpath.

(** The signing identity carries a private key. *)
Hypothesis identity : Signatory_Entity s = Some e.
Hypothesis private_key : Entity_PrivateKey e = Some key.

(** The YAML library writes the two documents, in whole lines and
    without the separator, and reads back what it wrote. *)
Hypothesis metadata_marshals :
  yaml_Marshal_Metadata (Chart_Metadata chart) = (mdb, None).
Hypothesis sums_marshal :
  yaml_Marshal_SumCollection (archive_sums chartpath data) = (scb, None).
Hypothesis metadata_free : strings_Contains mdb separator = false.
Hypothesis metadata_lines : strings_HasSuffix mdb (LF +:+ "...") = false.
Hypothesis sums_free : strings_Contains scb separator = false.
Hypothesis metadata_unmarshals : yaml_Unmarshal_Metadata mdb = (md', None).
Hypothesis sums_unmarshal :
  yaml_Unmarshal_SumCollection scb = (archive_sums chartpath data, None).

(** The clear-signature library signs the block, and decodes what it
    signed to the block it was given. *)
Hypothesis encode_ok : clearsign_Encode key defaultPGPConfig = (header, None).
Hypothesis write_ok :
  clearsign_Write key defaultPGPConfig "" (block_of mdb scb) = (body, None).
Hypothesis close_ok :
  clearsign_Close key defaultPGPConfig (block_of mdb scb) = (trailer, close_err).
Hypothesis decode_ok :
  clearsign_Decode (header +:+ body +:+ trailer) = (Some block, rest).
Hypothesis plaintext_ok : Plaintext block = block_of mdb scb.

(** The keyring holds the public key of the identity: the signature
    checks, and the signer found is the identity. *)
Hypothesis signature_ok :
  openpgp_CheckDetachedSignature (KeyRing s) (Bytes block)
    (Body (ArmoredSignature block)) = (Some e, None).

Lemma ClearSign_signs :
  result (ClearSign fs s chartpath) = Ret (header +:+ body +:+ trailer, None).
Proof using archive_file archive_loads identity private_key metadata_marshals
  sums_marshal encode_ok write_ok close_ok.
  unfold ClearSign, result. rewrite identity. simpl. rewrite private_key.
  unfold os_Stat. rewrite archive_file. simpl.
  rewrite (messageBlock_trace fs chartpath data chart mdb scb
             archive_file archive_loads metadata_marshals sums_marshal).
  simpl. rewrite encode_ok. simpl. unfold block_of in write_ok, close_ok.
  rewrite write_ok. simpl. rewrite close_ok. reflexivity.
Qed.

Lemma Verify_verifies :
  result (Verify (<[ sigpath := RegularFile true (header +:+ body +:+ trailer) ]> fs)
            s chartpath sigpath)
  = Ret ({| SignedBy := Some e; FileHash := archive_sum data |}, None).
Proof using archive_file other_path metadata_free metadata_lines sums_free
  metadata_unmarshals sums_unmarshal decode_ok plaintext_ok signature_ok.
  set (fs' := <[ sigpath := _ ]> fs).
  assert (Hc : fs' !! chartpath = Some (RegularFile true data))
    by (unfold fs'; by rewrite lookup_insert_ne).
  assert (Hs : fs' !! sigpath = Some (RegularFile true (header +:+ body +:+ trailer)))
    by (unfold fs'; by rewrite lookup_insert_eq).
  clearbody fs'. unfold Verify, result.
  rewrite (Verify_files_regular fs' _ _ _ _ _ _ Hc Hs). cbn.
  rewrite (decodeSignature_ok fs' _ _ _ _ Hs decode_ok). cbn.
  rewrite signature_ok. cbn.
  rewrite (sumArchive_regular fs' _ _ Hc). cbn.
  rewrite plaintext_ok. unfold block_of.
  rewrite (parseMessageBlock_ok _ _ _ _ metadata_free metadata_lines sums_free
             metadata_unmarshals sums_unmarshal).
  cbn. rewrite lookup_singleton_eq. unfold archive_sum.
  by rewrite String.eqb_refl.
Qed.


End SignThenVerify.

(** ** The message block *)

(** C7. messageBlock and parseMessageBlock are inverse to each other:
    when the serialized metadata and the serialized sums do not contain
    the separator (and the serialized metadata, as a YAML document, does
    not stop in the middle of a line made of three dots), the block
    written for a metadata record and a sum collection is parsed back
    to that record and that collection, given that the YAML library
    reads back what it wrote. *)
Theorem message_block_round_trip `{env : Env} (md : Metadata) (sc : SumCollection)
    (mdb scb : string) :
  yaml_Marshal_Metadata md = (mdb, None) →
  yaml_Marshal_SumCollection sc = (scb, None) →
  strings_Contains mdb separator = false →
  strings_Contains scb separator = false →
  strings_HasSuffix mdb (LF +:+ "...") = false →
  yaml_Unmarshal_Metadata mdb = (md, None) →
  yaml_Unmarshal_SumCollection scb = (sc, None) →
  ∃ b, result (messageBlock_buffer md sc) = Ret (Some b, None) ∧
       result (parseMessageBlock b) = Ret (Some md, Some sc, None).
Proof.
  intros Hm Hs Hfm Hfs Hl Hum Hus. exists (block_of mdb scb). split.
  - by rewrite (messageBlock_buffer_ok _ _ _ _ Hm Hs).
  - unfold block_of. by rewrite (parseMessageBlock_ok _ _ _ _ Hfm Hl Hfs Hum Hus).
Qed.

(** The block messageBlock writes for an archive is parsed back to the
    metadata of the chart and to the sum of the archive. *)
Lemma messageBlock_parsed_back `{env : Env} (fs : gmap string node)
    (chartpath data : string) (chart : Chart) (mdb scb : string) :
  fs !! chartpath = Some (RegularFile true data) →
  chartutil_LoadArchive data = (Some chart, None) →
  yaml_Marshal_Metadata (Chart_Metadata chart) = (mdb, None) →
  yaml_Marshal_SumCollection (archive_sums chartpath data) = (scb, None) →
  strings_Contains mdb separator = false →
  strings_Contains scb separator = false →
  strings_HasSuffix mdb (LF +:+ "...") = false →
  yaml_Unmarshal_Metadata mdb = (Chart_Metadata chart, None) →
  yaml_Unmarshal_SumCollection scb = (archive_sums chartpath data, None) →
  ∃ b, result (messageBlock fs chartpath) = Ret (Some b, None) ∧
       result (parseMessageBlock b)
       = Ret (Some (Chart_Metadata chart), Some (archive_sums chartpath data), None).
Proof.
  intros Hf Hl Hm Hs Hfm Hfs Hlines Hum Hus. exists (block_of mdb scb). split.
  - by rewrite (messageBlock_trace fs _ _ _ _ _ Hf Hl Hm Hs).
  - unfold block_of. by rewrite (parseMessageBlock_ok _ _ _ _ Hfm Hlines Hfs Hum Hus).
Qed.

(** ** The checksum of the archive in Verify *)

(** C4. Once the signature is verified, Verify looks the base name of
    the archive up in the files of the decoded sums.  Without an entry
    it fails with the error that the provenance does not contain a SHA;
    with an entry that differs from [sha256:] followed by the digest
    computed anew it fails with the error that the sum does not match;
    with an equal entry it returns the signer and the digest. *)
Theorem Verify_checksum_lookup `{env : Env} (fs : gmap string node) (s : Signatory)
    (chartpath sigpath data sig rest : string) (block : clearsign_Block)
    (signer : option Entity) (md : option Metadata) (sums : SumCollection) :
  fs !! chartpath = Some (RegularFile true data) →
  fs !! sigpath = Some (RegularFile true sig) →
  clearsign_Decode sig = (Some block, rest) →
  openpgp_CheckDetachedSignature (KeyRing s) (Bytes block)
    (Body (ArmoredSignature block)) = (signer, None) →
  result (parseMessageBlock (Plaintext block)) = Ret (md, Some sums, None) →
  let basename := filepath_Base chartpath in
  (Files sums !! basename = None →
   result (Verify fs s chartpath sigpath)
   = Ret ({| SignedBy := signer; FileHash := "" |},
          Some (fmt_Errorf "provenance does not contain a SHA for a file named %q"
                  [basename]))) ∧
  (∀ sha, Files sums !! basename = Some sha → sha ≠ archive_sum data →
   result (Verify fs s chartpath sigpath)
   = Ret ({| SignedBy := signer; FileHash := "" |},
          Some (fmt_Errorf "sha256 sum does not match for %s: %q != %q"
                  [basename; sha; archive_sum data]))) ∧
  (Files sums !! basename = Some (archive_sum data) →
   result (Verify fs s chartpath sigpath)
   = Ret ({| SignedBy := signer; FileHash := archive_sum data |}, None)).
Proof.
  intros Hc Hs Hd Hk Hp basename.
  assert (Hrun : ∀ r,
    (match Files sums !! basename with
     | None =>
         Ret ({| SignedBy := signer; FileHash := "" |},
              Some (fmt_Errorf "provenance does not contain a SHA for a file named %q"
                      [basename]))
     | Some sha =>
         if negb (String.eqb sha (archive_sum data))
         then Ret ({| SignedBy := signer; FileHash := "" |},
                   Some (fmt_Errorf "sha256 sum does not match for %s: %q != %q"
                           [basename; sha; archive_sum data]))
         else Ret ({| SignedBy := signer; FileHash := archive_sum data |}, None)
     end) = r → result (Verify fs s chartpath sigpath) = r).
  { intros r <-. unfold Verify, result.
    rewrite (Verify_files_regular fs _ _ _ _ _ _ Hc Hs). cbn.
    rewrite (decodeSignature_ok fs _ _ _ _ Hs Hd). cbn.
    rewrite Hk. cbn. rewrite (sumArchive_regular fs _ _ Hc). cbn.
    destruct (parseMessageBlock (Plaintext block)) as [t o].
    unfold result in Hp. cbn in Hp. subst o. cbn.
    fold basename. unfold archive_sum.
    destruct (Files sums !! basename) as [sha|]; [|reflexivity].
    by destruct (negb _). }
  split; [|split].
  - intros Hn. apply Hrun. by rewrite Hn.
  - intros sha Hsha Hne. apply Hrun. rewrite Hsha.
    apply String.eqb_neq in Hne. by rewrite Hne.
  - intros Hsha. apply Hrun. rewrite Hsha. by rewrite String.eqb_refl.
Qed.

Example demo_keyring_read : demo_ReadKeyRing demo_keys = (demo_ring, None).
Proof. reflexivity. Qed.

Example demo_ClearSign :
  ClearSign (env := demo) demo_fs demo_signer "charts/mychart-0.1.0.tgz"
  = ([ev_Stat "charts/mychart-0.1.0.tgz"; ev_Open "charts/mychart-0.1.0.tgz";
      ev_Read "charts/mychart-0.1.0.tgz"; ev_SHA256 demo_chart;
      ev_LoadFile "charts/mychart-0.1.0.tgz"; ev_yaml_Marshal; ev_yaml_Marshal;
      ev_clearsign_Encode;
      ev_clearsign_Write (block_of demo_metadata_yaml demo_sums_yaml);
      ev_clearsign_Close],
     Ret (demo_signature, None)).
Proof. vm_compute. reflexivity. Qed.

(** ** What Verify returns when it fails *)

(** Two runs of one call give one result. *)
Ltac same :=
  repeat match goal with
         | H1 : ?a = _, H2 : ?a = _ |- _ => rewrite H1 in H2; simplify_eq
         end.

(** One stage of Verify that the hypotheses of a case exclude or settle. *)
Ltac stage :=
  first [ done
        | by (intros; simplify_eq; same)
        | by (intros H; destruct H; split; eexists _, _)
        | by intros ? ? ? ? (? & ? & ?) ].

(** C9, as the code has it.  When Verify fails, the FileHash it returns
    is empty, and SignedBy tells how far Verify came.  It is unset
    when a path is missing or is a directory, when the signature file
    cannot be read or holds no signature block, and when the
    verification of the signature fails.  Once the signature is
    verified, SignedBy is the signer the verification returned, on
    every failure that follows: the archive cannot be opened to be
    hashed, the message block cannot be parsed, the sum of the archive
    is missing or differs. *)
Theorem Verify_failure_fields `{env : Env} (fs : gmap string node) (s : Signatory)
    (chartpath sigpath : string) (ver : Verification) (err : error) :
  result (Verify fs s chartpath sigpath) = Ret (ver, Some err) →
  FileHash ver = "" ∧
  (¬ (is_regular fs chartpath ∧ is_regular fs sigpath) → SignedBy ver = None) ∧
  (∀ sig, fs !! sigpath = Some (RegularFile false sig) → SignedBy ver = None) ∧
  (∀ sig rest,
     fs !! sigpath = Some (RegularFile true sig) →
     clearsign_Decode sig = (None, rest) →
     SignedBy ver = None) ∧
  (∀ sig rest block signer e,
     fs !! sigpath = Some (RegularFile true sig) →
     clearsign_Decode sig = (Some block, rest) →
     openpgp_CheckDetachedSignature (KeyRing s) (Bytes block)
       (Body (ArmoredSignature block)) = (signer, Some e) →
     SignedBy ver = None) ∧
  (∀ sig rest block signer,
     is_regular fs chartpath →
     fs !! sigpath = Some (RegularFile true sig) →
     clearsign_Decode sig = (Some block, rest) →
     openpgp_CheckDetachedSignature (KeyRing s) (Bytes block)
       (Body (ArmoredSignature block)) = (signer, None) →
     SignedBy ver = signer ∧ fails_after_signature fs chartpath block err).
Proof.
  unfold Verify, result, Verify_files, os_Stat, is_regular.
  destruct (fs !! chartpath) as [[|r1 d1]|] eqn:Hc; cbn;
    try (intros [= <- <-]; split_and!; stage).
  destruct (fs !! sigpath) as [[|r2 d2]|] eqn:Hs; cbn;
    try (intros [= <- <-]; split_and!; stage).
  unfold decodeSignature, ioutil_ReadFile, os_Open. rewrite Hs.
  destruct r2; cbn; try (intros [= <- <-]; split_and!; stage).
  destruct (clearsign_Decode d2) as [[block|] rest] eqn:Hd; cbn;
    try (intros [= <- <-]; split_and!; stage).
  destruct (openpgp_CheckDetachedSignature _ _ _) as [signer [e|]] eqn:Hk; cbn;
    try (intros [= <- <-]; split_and!; stage).
  unfold sumArchive, os_Open. rewrite Hc.
  destruct r1; cbn.
  2:{ intros [= <- <-]. split_and!; try stage.
      intros; simplify_eq; same. split; [done|]. left. by eexists. }
  destruct (parseMessageBlock (Plaintext block)) as [t [[[md sums] perr]|reason]] eqn:Hp;
    cbn; [|discriminate].
  destruct perr as [perr|]; cbn.
  { intros [= <- <-]. split_and!; try stage.
    intros; simplify_eq; same. split; [done|]. right. eexists. split; [done|].
    left. rewrite Hp. by eexists _, _. }
  destruct sums as [sums|]; cbn; [|discriminate].
  destruct (Files sums !! filepath_Base chartpath) as [sha|] eqn:Hf; cbn.
  2:{ intros [= <- <-]. split_and!; try stage.
      intros; simplify_eq; same. split; [done|]. right. eexists. split; [done|].
      right. rewrite Hp. eexists _, _. split; [done|]. by rewrite Hf. }
  destruct (negb _) eqn:Hn; cbn; [|discriminate].
  intros [= <- <-]. split_and!; try stage.
  intros; simplify_eq; same. split; [done|]. right. eexists. split; [done|].
  right. rewrite Hp. eexists _, _. split; [done|]. rewrite Hf. split; [|done].
  apply negb_true_iff, String.eqb_neq in Hn. exact Hn.
Qed.

(** ** Directories *)

(** C6, as the code has it.  ClearSign, called by a signatory whose
    identity carries a private key, answers a directory with the error
    for directories after the one [os.Stat] of the path.  Verify
    answers a directory given as the archive, or given as the signature
    of an archive that is a regular file, with the error naming that
    path, after the [os.Stat] calls alone.  Unless both paths of Verify
    are regular files, Verify does nothing but [os.Stat]: it opens,
    reads, hashes, decodes and checks nothing. *)
Theorem directories_rejected `{env : Env} (fs : gmap string node) (s : Signatory)
    (chartpath sigpath : string) :
  (∀ e key,
     Signatory_Entity s = Some e → Entity_PrivateKey e = Some key →
     fs !! chartpath = Some Directory →
     ClearSign fs s chartpath
     = ([ev_Stat chartpath], Ret ("", Some (errors_New "cannot sign a directory")))) ∧
  (fs !! chartpath = Some Directory →
   Verify fs s chartpath sigpath
   = ([ev_Stat chartpath],
      Ret ({| SignedBy := None; FileHash := "" |},
           Some (fmt_Errorf "%s cannot be a directory" [chartpath])))) ∧
  (is_regular fs chartpath → fs !! sigpath = Some Directory →
   Verify fs s chartpath sigpath
   = ([ev_Stat chartpath; ev_Stat sigpath],
      Ret ({| SignedBy := None; FileHash := "" |},
           Some (fmt_Errorf "%s cannot be a directory" [sigpath])))) ∧
  (¬ (is_regular fs chartpath ∧ is_regular fs sigpath) →
   Forall (λ ev, is_stat ev = true) (trace (Verify fs s chartpath sigpath))).
Proof.
  repeat split.
  - intros e key He Hk Hd. unfold ClearSign, os_Stat. rewrite He. cbn. rewrite Hk, Hd. done.
  - intros Hd. unfold Verify, Verify_files, os_Stat. by rewrite Hd.
  - intros (r & d & Hc) Hd. unfold Verify, Verify_files, os_Stat. by rewrite Hc, Hd.
  - intros Hn. unfold Verify, Verify_files, os_Stat, trace.
    destruct (fs !! chartpath) as [[|r1 d1]|] eqn:Hc; cbn;
      try by repeat constructor.
    destruct (fs !! sigpath) as [[|r2 d2]|] eqn:Hs; cbn;
      try by repeat constructor.
    destruct Hn. split; by eexists _, _.
Qed.

(** ** The private key of the signatory *)

(** C10. ClearSign begins by reading the private key through the Entity
    of the signatory, and nothing checks that Entity before.  With no
    private key to be found, the error that the private key was not
    found is returned only when the Entity is set; when it is nil, the
    read is a nil dereference and ClearSign panics.  In both cases
    nothing was done before. *)
Theorem ClearSign_requires_entity `{env : Env} (fs : gmap string node) (s : Signatory)
    (chartpath : string) :
  carries_private_key s = false →
  (Signatory_Entity s ≠ None →
   ClearSign fs s chartpath = ([], Ret ("", Some (errors_New "private key not found")))) ∧
  (Signatory_Entity s = None →
   ClearSign fs s chartpath = ([], Panic nil_dereference)).
Proof.
  unfold carries_private_key, ClearSign.
  destruct (Signatory_Entity s) as [e|]; cbn; [destruct (Entity_PrivateKey e)|];
    intros H; try discriminate; split; intros H'; done.
Qed.

(** The check of the private key comes first: with an identity that has
    no private key, ClearSign returns its error without a single call
    to the file system or to a library, whatever the path is. *)
Lemma ClearSign_private_key_not_found `{env : Env} (fs : gmap string node) (s : Signatory)
    (e : Entity) (chartpath : string) :
  Signatory_Entity s = Some e → Entity_PrivateKey e = None →
  ClearSign fs s chartpath = ([], Ret ("", Some (errors_New "private key not found"))).
Proof. intros He Hk. unfold ClearSign. rewrite He. cbn. by rewrite Hk. Qed.

(** C8 fails on the code: a signatory without signing identity has no
    private key to sign with, and ClearSign does not return the error
    that the private key was not found but panics.  NewFromKeyring
    makes such a signatory, without error, for a name that no key of
    the keyring carries, and [packageCmd.clearsign] passes it on to
    ClearSign. *)
Theorem ClearSign_nil_entity_panics :
  let unsigned := {| Signatory_Entity := None; KeyRing := demo_ring |} in
  result (NewFromKeyring (env := demo) demo_fs "pubring.gpg" "nobody")
  = Ret (Some unsigned, None) ∧
  carries_private_key unsigned = false ∧
  ClearSign (env := demo) demo_fs unsigned "charts/mychart-0.1.0.tgz"
  = ([], Panic nil_dereference) ∧
  result (packageCmd_clearsign (env := demo) (cmdenv := demo_cmd) demo_fs
            {| save := true; sign := true; path := "charts/mychart";
               key := "nobody"; keyring := "pubring.gpg" |}
            "charts/mychart-0.1.0.tgz")
  = Panic nil_dereference.
Proof. vm_compute. done. Qed.

(** ** Errors that are dropped *)

(** X23. Whatever error messageBlock returns, ClearSign returns the
    empty string and no error, having called nothing after it. *)
Lemma ClearSign_drops_messageBlock_error `{env : Env} (fs : gmap string node)
    (s : Signatory) (e : Entity) (key : PrivateKey) (chartpath : string)
    (r : bool) (data : string) (t : list event) (b : option string) (err : error) :
  Signatory_Entity s = Some e → Entity_PrivateKey e = Some key →
  fs !! chartpath = Some (RegularFile r data) →
  messageBlock fs chartpath = (t, Ret (b, Some err)) →
  ClearSign fs s chartpath = (ev_Stat chartpath :: t, Ret ("", None)).
Proof.
  intros He Hk Hf Hm. unfold ClearSign, os_Stat. rewrite He. cbn. rewrite Hk, Hf. cbn.
  rewrite Hm. cbn. by rewrite app_nil_r.
Qed.

(** C2 fails on the code.  An archive that is a regular file but cannot
    be opened makes sumArchive fail, messageBlock hands the error on,
    and ClearSign drops it: it returns the empty string and no error,
    and [packageCmd.clearsign] writes an empty signature file.  And
    sumArchive itself drops the error of the copy: given a directory,
    which opens but cannot be read, it returns the digest of no bytes
    and no error. *)
Theorem ClearSign_drops_hashing_error :
  sumArchive (env := demo) demo_fs "charts/locked-0.1.0.tgz"
  = ([ev_Open "charts/locked-0.1.0.tgz"],
     Ret ("", Some (os_PathError "open" "charts/locked-0.1.0.tgz" EACCES))) ∧
  ClearSign (env := demo) demo_fs demo_signer "charts/locked-0.1.0.tgz"
  = ([ev_Stat "charts/locked-0.1.0.tgz"; ev_Open "charts/locked-0.1.0.tgz"],
     Ret ("", None)) ∧
  result (packageCmd_clearsign (env := demo) (cmdenv := demo_cmd) demo_fs
            {| save := true; sign := true; path := "charts/locked";
               key := "helm-testing@helm.sh"; keyring := "pubring.gpg" |}
            "charts/locked-0.1.0.tgz")
  = Ret (<[ "charts/locked-0.1.0.tgz.prov" := RegularFile true "" ]> demo_fs, None) ∧
  sumArchive (env := demo) demo_fs "charts/mychart"
  = ([ev_Open "charts/mychart"; ev_Read "charts/mychart"; ev_SHA256 ""],
     Ret ("e3b0c44298fc1c149afbf4c8996fb92427ae41e4649b934ca495991b7852b855", None)).
Proof. vm_compute. done. Qed.

(** ** The lookup of NewFromKeyring *)

Lemma scanIdentities_exact (id : string) (e : Entity) (names : list string)
    (candidate : option Entity) (vague : bool) :
  existsb (λ n, String.eqb n id) names = true →
  scanIdentities id e names candidate vague = inl e.
Proof.
  revert candidate vague. induction names as [|n names IH]; intros c v H; [done|].
  cbn in *. destruct (String.eqb n id); [done|].
  destruct (strings_Contains n id); by apply IH.
Qed.

Lemma scanIdentities_no_exact (id : string) (e : Entity) (names : list string)
    (candidate : option Entity) (vague : bool) :
  existsb (λ n, String.eqb n id) names = false →
  scanIdentities id e names candidate vague
  = inr (after_matches e
           (List.length (filter (λ n, strings_Contains n id = true) names))
           candidate vague).
Proof.
  revert candidate vague. induction names as [|n names IH]; intros c v H; [done|].
  cbn in H. apply orb_false_iff in H as [Hn H].
  cbn [scanIdentities]. rewrite Hn. rewrite filter_cons.
  destruct (strings_Contains n id) eqn:Hc.
  - rewrite decide_True by done. rewrite (IH _ _ H). cbn [List.length].
    destruct (List.length _) as [|[|k]]; destruct c; done.
  - rewrite decide_False by done. by apply IH.
Qed.

(** An exact match ends the lookup: the first entity of the keyring
    with an identity equal to [id] is found, whatever was seen before. *)
Lemma scanRing_exact (id : string) (before after : EntityList) (e : Entity)
    (candidate : option Entity) (vague : bool) :
  Forall (λ e', has_exact id e' = false) before →
  has_exact id e = true →
  scanRing id (before ++ e :: after) candidate vague = inl e.
Proof.
  revert candidate vague. induction before as [|e' before IH]; intros c v Hb He.
  - cbn. by rewrite (scanIdentities_exact _ _ _ _ _ He).
  - inversion Hb as [|? ? H1 H2]; subst. cbn.
    rewrite (scanIdentities_no_exact _ _ _ _ _ H1).
    destruct (after_matches _ _ _ _). by apply IH.
Qed.

(** Without exact match the loops end with [vague] set exactly when two
    matching labels were seen, counted over the whole keyring. *)
Lemma scanRing_no_exact (id : string) (ring : EntityList)
    (candidate : option Entity) (vague : bool) :
  Forall (λ e, has_exact id e = false) ring →
  ∃ candidate' vague',
    scanRing id ring candidate vague = inr (candidate', vague') ∧
    (vague' = true ↔
       vague = true ∨
       (2 ≤ count_matching_labels id ring)%nat ∨
       (is_Some candidate ∧ (1 ≤ count_matching_labels id ring)%nat)) ∧
    (count_matching_labels id ring = 0 → candidate' = candidate) ∧
    ((1 ≤ count_matching_labels id ring)%nat → is_Some candidate').
Proof.
  revert candidate vague. induction ring as [|e ring IH]; intros c v Hr.
  - exists c, v. cbn. repeat split; try done; try lia.
    + by left.
    + intros [?|[?|[_ ?]]]; [done|lia|lia].
  - inversion Hr as [|? ? H1 H2]; subst. cbn [scanRing count_matching_labels].
    rewrite (scanIdentities_no_exact _ _ _ _ _ H1).
    fold (matching_labels id e).
    destruct (List.length (matching_labels id e)) as [|[|k]] eqn:Hk; cbn [after_matches].
    + destruct (IH c v H2) as (c' & v' & -> & Hv & H0 & H1').
      exists c', v'. by rewrite !Nat.add_0_l.
    + destruct (IH (Some e) (match c with Some _ => true | None => v end) H2)
        as (c' & v' & -> & Hv & H0 & H1').
      exists c', v'. repeat split.
      * rewrite Hv. intros [H|[H|[_ H]]].
        -- destruct c; [right; right; split; [done|lia] | by left].
        -- right; left; lia.
        -- right; left; lia.
      * rewrite Hv. intros [H|[H|[[x ->] H]]].
        -- left. by destruct c.
        -- destruct (count_matching_labels id ring) as [|n] eqn:Hn.
           ++ lia.
           ++ right; right. split; [done|lia].
        -- by left.
      * lia.
      * intros _. destruct (count_matching_labels id ring) as [|n] eqn:Hn.
        -- rewrite H0 by done. done.
        -- apply H1'. lia.
    + destruct (IH (Some e) true H2) as (c' & v' & -> & Hv & H0 & H1').
      exists c', v'. repeat split.
      * intros _. right; left; lia.
      * intros _. apply Hv. by left.
      * lia.
      * intros _. destruct (count_matching_labels id ring) as [|n] eqn:Hn.
        -- rewrite H0 by done. done.
        -- apply H1'. lia.
Qed.

Section Lookup.
Context {env : Env}.
Variables (fs : gmap string node) (keyringfile id : string) (ring : EntityList).
Variable t : list event.
Hypothesis keyring_loads : loadKeyRing fs keyringfile = (t, Ret (ring, None)).
Hypothesis named : id ≠ "".

(** X19. An identity equal to the name selects its entity, the first of
    the keyring to have one, and no error is returned. *)
Lemma NewFromKeyring_exact (before after : EntityList) (e : Entity) :
  ring = before ++ e :: after →
  Forall (λ e', has_exact id e' = false) before →
  has_exact id e = true →
  result (NewFromKeyring fs keyringfile id)
  = Ret (Some {| Signatory_Entity := Some e; KeyRing := ring |}, None).
Proof using keyring_loads named.
  intros Hr Hb He. unfold NewFromKeyring, result. rewrite keyring_loads. cbn.
  apply String.eqb_neq in named. rewrite named.
  rewrite Hr at 1. by rewrite (scanRing_exact _ _ _ _ _ _ Hb He).
Qed.

(** X20. Without exact match, the error that more than one key contains
    the name is returned exactly when two labels of the keyring contain
    the name, be they labels of two entities or of one. *)
Lemma NewFromKeyring_ambiguous :
  Forall (λ e, has_exact id e = false) ring →
  (∃ s err, result (NewFromKeyring fs keyringfile id) = Ret (s, Some err))
  ↔ (2 ≤ count_matching_labels id ring)%nat.
Proof using keyring_loads named.
  intros Hr. unfold NewFromKeyring, result. rewrite keyring_loads. cbn.
  apply String.eqb_neq in named. rewrite named.
  destruct (scanRing_no_exact id ring None false Hr) as (c & v & -> & Hv & _ & _).
  destruct v; cbn.
  - split; [intros _ | by eauto].
    destruct Hv as [Hv _]. destruct (Hv eq_refl) as [?|[?|[[? ?] _]]]; done.
  - split; [by intros (? & ? & [=]) | intros H].
    destruct Hv as [_ Hv]. by discriminate Hv; auto.
Qed.

(** X21. When no label contains the name, no error is returned and the
    signatory has no signing identity. *)
Lemma NewFromKeyring_no_candidate :
  Forall (λ e, has_exact id e = false) ring →
  count_matching_labels id ring = 0 →
  result (NewFromKeyring fs keyringfile id)
  = Ret (Some {| Signatory_Entity := None; KeyRing := ring |}, None).
Proof using keyring_loads named.
  intros Hr H0. unfold NewFromKeyring, result. rewrite keyring_loads. cbn.
  apply String.eqb_neq in named. rewrite named.
  destruct (scanRing_no_exact id ring None false Hr) as (c & v & -> & Hv & Hc & _).
  rewrite (Hc H0). destruct v; [|done].
  destruct Hv as [Hv _]. destruct (Hv eq_refl) as [?|[?|[[? ?] _]]]; [done|lia|done].
Qed.

End Lookup.

Lemma existsb_Permutation {A : Type} (f : A → bool) (l l' : list A) :
  l ≡ₚ l' → existsb f l = existsb f l'.
Proof.
  induction 1 as [|x l l' _ IH|x y l|l l1 l2 _ IH1 _ IH2]; cbn.
  - done.
  - by rewrite IH.
  - destruct (f x), (f y); done.
  - by rewrite IH1.
Qed.

(** X22. Go leaves the order of a [range] over a map open.  The loop
    over the identities of an entity ends the same way in every order:
    with the same entity found, or with the same candidate and the
    same [vague]. *)
Lemma scanIdentities_order (id : string) (e : Entity) (names names' : list string)
    (candidate : option Entity) (vague : bool) :
  names ≡ₚ names' →
  scanIdentities id e names candidate vague = scanIdentities id e names' candidate vague.
Proof.
  intros Hp.
  destruct (existsb (λ n, String.eqb n id) names) eqn:Hx.
  - rewrite (scanIdentities_exact _ _ _ _ _ Hx).
    rewrite (existsb_Permutation _ _ _ Hp) in Hx.
    by rewrite (scanIdentities_exact _ _ _ _ _ Hx).
  - rewrite (scanIdentities_no_exact _ _ _ _ _ Hx).
    rewrite (existsb_Permutation _ _ _ Hp) in Hx.
    rewrite (scanIdentities_no_exact _ _ _ _ _ Hx).
    by rewrite Hp.
Qed.

(** When no entity has two labels that contain the name, labels and
    entities count the same: the error is then returned exactly when
    two entities have a label that contains the name. *)
Lemma count_matching_labels_entities (id : string) (ring : EntityList) :
  Forall (λ e, (List.length (matching_labels id e) ≤ 1)%nat) ring →
  count_matching_labels id ring = List.length (matching_entities id ring).
Proof.
  induction 1 as [|e ring He _ IH]; [done|].
  cbn [count_matching_labels]. unfold matching_entities. rewrite filter_cons.
  fold (matching_entities id ring). rewrite IH.
  destruct (matching_labels id e) as [|n [|n' l]] eqn:Hl; cbn in He.
  - by rewrite decide_False by (intros H; by apply H).
  - by rewrite decide_True by done.
  - lia.
Qed.

(** C3 fails on the code.  The key of Alice is the one key of the
    keyring with a label that contains [Alice]; it has two such labels
    and none is [Alice] itself.  The second label finds [candidate]
    set by the first, and NewFromKeyring returns the error that more
    than one key contains the name. *)
Theorem NewFromKeyring_one_key_two_labels :
  Forall (λ e, has_exact "Alice" e = false) demo_ring ∧
  matching_entities "Alice" demo_ring = [alice] ∧
  matching_labels "Alice" alice
  = ["Alice Foo <alice@example.com>"; "Alice Foo (work) <alice@example.org>"] ∧
  result (NewFromKeyring (env := demo) demo_fs "pubring.gpg" "Alice")
  = Ret (Some {| Signatory_Entity := None; KeyRing := demo_ring |},
         Some (fmt_Errorf "more than one key contain the id %q" ["Alice"])).
Proof. repeat split; try (vm_compute; reflexivity). by repeat constructor. Qed.

(** C5 fails on the code, by the same defect.  The name [example] is
    not empty, equals no label, and is contained in labels of one
    entity only; NewFromKeyring returns an error all the same. *)
Theorem NewFromKeyring_one_candidate_error :
  "example" ≠ "" ∧
  Forall (λ e, has_exact "example" e = false) demo_ring ∧
  (List.length (matching_entities "example" demo_ring) ≤ 1)%nat ∧
  ∃ s err,
    result (NewFromKeyring (env := demo) demo_fs "pubring.gpg" "example")
    = Ret (s, Some err).
Proof.
  repeat split; [done | by repeat constructor | vm_compute; lia | ].
  eexists _, _. vm_compute. reflexivity.
Qed.

(** ** Counterexamples *)

(** C6 as it is stated fails: the key of Alice has no private part, and
    ClearSign, given a directory, returns the error of the missing
    private key, not the error for directories. *)
Lemma ClearSign_directory_without_key :
  ¬ ClearSign_rejects_directory (env := demo) demo_fs
      {| Signatory_Entity := Some alice; KeyRing := demo_ring |} "charts/mychart".
Proof.
  intros H. destruct H as [H _]; [vm_compute; reflexivity|].
  vm_compute in H. discriminate H.
Qed.

(** C9 as it is stated fails: the signature is valid and the archive
    was changed after it was signed; Verify fails, and the Verification
    it returns names the signer. *)
Lemma Verify_failure_keeps_signer :
  ¬ failure_leaves_zero_value (env := demo) demo_tampered_fs demo_signer
      "charts/mychart-0.1.0.tgz" "charts/mychart-0.1.0.tgz.prov".
Proof.
  intros H.
  assert (E : result (Verify (env := demo) demo_tampered_fs demo_signer
                        "charts/mychart-0.1.0.tgz" "charts/mychart-0.1.0.tgz.prov")
              = Ret ({| SignedBy := Some helm_testing; FileHash := "" |},
                     Some (fmt_Errorf "sha256 sum does not match for %s: %q != %q"
                             ["mychart-0.1.0.tgz"; demo_digest;
                              "sha256:015609e2c797a3b1df346a2e775956ccefce52a8a11d8968b30a3b2d04b1634b"])))
    by (vm_compute; reflexivity).
  destruct (H _ _ E) as [Hs _]. discriminate Hs.
Qed.

(** ** The theorems at the files of the reference environment *)


(** C7 at the metadata and the sums of that archive. *)
Lemma message_block_round_trip_demo :
  ∃ b, result (messageBlock_buffer (env := demo) demo_metadata demo_sums)
       = Ret (Some b, None) ∧
       result (parseMessageBlock (env := demo) b)
       = Ret (Some demo_metadata, Some demo_sums, None).
Proof.
  apply (@message_block_round_trip demo demo_metadata demo_sums
           demo_metadata_yaml demo_sums_yaml);
    vm_compute; reflexivity.
Defined.

(** C4 at the signed archive (the sum is equal), at the archive changed
    after signing (the sum differs) and at a copy of the archive under
    another base name (no sum for that name). *)
Lemma Verify_checksum_lookup_demo :
  result (Verify (env := demo) demo_signed_fs demo_signer
            "charts/mychart-0.1.0.tgz" "charts/mychart-0.1.0.tgz.prov")
  = Ret ({| SignedBy := Some helm_testing; FileHash := demo_digest |}, None) ∧
  result (Verify (env := demo) demo_tampered_fs demo_signer
            "charts/mychart-0.1.0.tgz" "charts/mychart-0.1.0.tgz.prov")
  = Ret ({| SignedBy := Some helm_testing; FileHash := "" |},
         Some (fmt_Errorf "sha256 sum does not match for %s: %q != %q"
                 ["mychart-0.1.0.tgz"; demo_digest;
                  "sha256:015609e2c797a3b1df346a2e775956ccefce52a8a11d8968b30a3b2d04b1634b"])) ∧
  result (Verify (env := demo)
            (<[ "charts/renamed-0.1.0.tgz" := RegularFile true demo_chart ]> demo_signed_fs)
            demo_signer "charts/renamed-0.1.0.tgz" "charts/mychart-0.1.0.tgz.prov")
  = Ret ({| SignedBy := Some helm_testing; FileHash := "" |},
         Some (fmt_Errorf "provenance does not contain a SHA for a file named %q"
                 ["renamed-0.1.0.tgz"])).
Proof.
  split; [|split].
  - apply (@Verify_checksum_lookup demo demo_signed_fs demo_signer
             "charts/mychart-0.1.0.tgz" "charts/mychart-0.1.0.tgz.prov"
             demo_chart demo_signature "" demo_block (Some helm_testing)
             (Some demo_metadata) demo_sums);
      vm_compute; reflexivity.
  - apply (@Verify_checksum_lookup demo demo_tampered_fs demo_signer
             "charts/mychart-0.1.0.tgz" "charts/mychart-0.1.0.tgz.prov"
             ("mychart" +:+ LF +:+ "0.1.0" +:+ LF +:+ "Another chart")
             demo_signature "" demo_block (Some helm_testing)
             (Some demo_metadata) demo_sums);
      try (vm_compute; reflexivity).
    vm_compute. discriminate.
  - apply (@Verify_checksum_lookup demo
             (<[ "charts/renamed-0.1.0.tgz" := RegularFile true demo_chart ]> demo_signed_fs)
             demo_signer
             "charts/renamed-0.1.0.tgz" "charts/mychart-0.1.0.tgz.prov"
             demo_chart demo_signature "" demo_block (Some helm_testing)
             (Some demo_metadata) demo_sums);
      vm_compute; reflexivity.
Defined.

(** C9, as the code has it, at the archive changed after signing: the
    signature is verified, the sum differs, and SignedBy is set. *)
Lemma Verify_failure_fields_demo :
  FileHash {| SignedBy := Some helm_testing; FileHash := "" |} = "" ∧
  (¬ (is_regular demo_tampered_fs "charts/mychart-0.1.0.tgz" ∧
      is_regular demo_tampered_fs "charts/mychart-0.1.0.tgz.prov") →
   SignedBy {| SignedBy := Some helm_testing; FileHash := "" |} = None) ∧
  (∀ sig,
     demo_tampered_fs !! "charts/mychart-0.1.0.tgz.prov" = Some (RegularFile false sig) →
     SignedBy {| SignedBy := Some helm_testing; FileHash := "" |} = None) ∧
  (∀ sig rest,
     demo_tampered_fs !! "charts/mychart-0.1.0.tgz.prov" = Some (RegularFile true sig) →
     demo_Decode sig = (None, rest) →
     SignedBy {| SignedBy := Some helm_testing; FileHash := "" |} = None) ∧
  (∀ sig rest block signer e,
     demo_tampered_fs !! "charts/mychart-0.1.0.tgz.prov" = Some (RegularFile true sig) →
     demo_Decode sig = (Some block, rest) →
     demo_CheckDetachedSignature demo_ring (Bytes block) (Body (ArmoredSignature block))
     = (signer, Some e) →
     SignedBy {| SignedBy := Some helm_testing; FileHash := "" |} = None) ∧
  (∀ sig rest block signer,
     is_regular demo_tampered_fs "charts/mychart-0.1.0.tgz" →
     demo_tampered_fs !! "charts/mychart-0.1.0.tgz.prov" = Some (RegularFile true sig) →
     demo_Decode sig = (Some block, rest) →
     demo_CheckDetachedSignature demo_ring (Bytes block) (Body (ArmoredSignature block))
     = (signer, None) →
     SignedBy {| SignedBy := Some helm_testing; FileHash := "" |} = signer ∧
     fails_after_signature (env := demo) demo_tampered_fs "charts/mychart-0.1.0.tgz" block
       (fmt_Errorf "sha256 sum does not match for %s: %q != %q"
          ["mychart-0.1.0.tgz"; demo_digest;
           "sha256:015609e2c797a3b1df346a2e775956ccefce52a8a11d8968b30a3b2d04b1634b"])).
Proof.
  apply (@Verify_failure_fields demo demo_tampered_fs demo_signer
           "charts/mychart-0.1.0.tgz" "charts/mychart-0.1.0.tgz.prov"
           {| SignedBy := Some helm_testing; FileHash := "" |}
           (fmt_Errorf "sha256 sum does not match for %s: %q != %q"
              ["mychart-0.1.0.tgz"; demo_digest;
               "sha256:015609e2c797a3b1df346a2e775956ccefce52a8a11d8968b30a3b2d04b1634b"])).
  vm_compute. reflexivity.
Defined.

(** C6, as the code has it, at the directory [charts/mychart] given to
    ClearSign, to Verify as the archive and to Verify as the signature. *)
Lemma directories_rejected_demo :
  ClearSign (env := demo) demo_fs demo_signer "charts/mychart"
  = ([ev_Stat "charts/mychart"], Ret ("", Some (errors_New "cannot sign a directory"))) ∧
  Verify (env := demo) demo_signed_fs demo_signer "charts/mychart"
    "charts/mychart-0.1.0.tgz.prov"
  = ([ev_Stat "charts/mychart"],
     Ret ({| SignedBy := None; FileHash := "" |},
          Some (fmt_Errorf "%s cannot be a directory" ["charts/mychart"]))) ∧
  Verify (env := demo) demo_signed_fs demo_signer "charts/mychart-0.1.0.tgz"
    "charts/mychart"
  = ([ev_Stat "charts/mychart-0.1.0.tgz"; ev_Stat "charts/mychart"],
     Ret ({| SignedBy := None; FileHash := "" |},
          Some (fmt_Errorf "%s cannot be a directory" ["charts/mychart"]))).
Proof.
  split; [|split].
  - apply (proj1 (@directories_rejected demo demo_fs demo_signer
                    "charts/mychart" "charts/mychart-0.1.0.tgz.prov")
             helm_testing
             {| PrivateKey_PublicKey := {| KeyId := "5E615389B53CA37F" |};
                Encrypted := false |});
      vm_compute; reflexivity.
  - apply (proj1 (proj2 (@directories_rejected demo demo_signed_fs demo_signer
                           "charts/mychart" "charts/mychart-0.1.0.tgz.prov"))).
    vm_compute; reflexivity.
  - apply (proj1 (proj2 (proj2 (@directories_rejected demo demo_signed_fs demo_signer
                                  "charts/mychart-0.1.0.tgz" "charts/mychart")))).
    + exists true, demo_chart. vm_compute; reflexivity.
    + vm_compute; reflexivity.
Defined.

(** C10 at a signatory whose key has no private part and at a
    signatory without signing identity. *)
Lemma ClearSign_requires_entity_demo :
  ClearSign (env := demo) demo_fs {| Signatory_Entity := Some alice; KeyRing := demo_ring |}
    "charts/mychart-0.1.0.tgz"
  = ([], Ret ("", Some (errors_New "private key not found"))) ∧
  ClearSign (env := demo) demo_fs {| Signatory_Entity := None; KeyRing := demo_ring |}
    "charts/mychart-0.1.0.tgz"
  = ([], Panic nil_dereference).
Proof.
  split.
  - apply (proj1 (@ClearSign_requires_entity demo demo_fs
                    {| Signatory_Entity := Some alice; KeyRing := demo_ring |}
                    "charts/mychart-0.1.0.tgz" eq_refl)).
    discriminate.
  - apply (proj2 (@ClearSign_requires_entity demo demo_fs
                    {| Signatory_Entity := None; KeyRing := demo_ring |}
                    "charts/mychart-0.1.0.tgz" eq_refl)).
    reflexivity.
Defined.

(** * Further properties of the package *)

#[local] Arguments ClearSign : simpl never.
#[local] Arguments NewFromKeyring : simpl never.
#[local] Arguments packageCmd_clearsign : simpl never.
#[local] Arguments ioutil_WriteFile : simpl never.

(** ** No function but ClearSign panics *)

Section Totality.
Context {env : Env}.
Variable fs : gmap string node.

Lemma sumArchive_returns (filename : string) :
  ∃ t sum err, sumArchive fs filename = (t, Ret (sum, err)).
Proof.
  unfold sumArchive, os_Open.
  destruct (fs !! filename) as [[|[] d]|]; cbn; by eexists _, _, _.
Qed.

Lemma parseMessageBlock_returns (data : string) :
  ∃ t md sc err,
    parseMessageBlock data = (t, Ret (md, sc, err)) ∧ (err = None → is_Some sc).
Proof.
  unfold parseMessageBlock.
  destruct (bytes_Split data separator) as [|p0 [|p1 l]]; cbn;
    try (eexists _, _, _, _; split; [reflexivity|done]).
  destruct (yaml_Unmarshal_Metadata p0) as [md [e|]]; cbn;
    try (eexists _, _, _, _; split; [reflexivity|done]).
  destruct (yaml_Unmarshal_SumCollection p1) as [sc err]; cbn.
  eexists _, _, _, _; split; [reflexivity|]. by eexists.
Qed.

Lemma messageBlock_returns (chartpath : string) :
  (∀ data, chartutil_LoadArchive data ≠ (None, None)) →
  ∃ t b err,
    messageBlock fs chartpath = (t, Ret (b, err)) ∧ (err = None → is_Some b).
Proof.
  intros Hload. unfold messageBlock, sumArchive, os_Open, chartutil_LoadFile.
  destruct (fs !! chartpath) as [[|[] d]|]; cbn;
    try (eexists _, _, _; split; [reflexivity|done]).
  destruct (chartutil_LoadArchive d) as [[chart|] [e|]] eqn:Hl; cbn;
    try (eexists _, _, _; split; [reflexivity|done]);
    [|by destruct (Hload d)].
  destruct (yaml_Marshal_Metadata _) as [mdb [e|]]; cbn;
    try (eexists _, _, _; split; [reflexivity|done]).
  destruct (yaml_Marshal_SumCollection _) as [scb [e|]]; cbn;
    eexists _, _, _; (split; [reflexivity|]); [done|by eexists].
Qed.

End Totality.

(** X1. Verify never panics: whatever the files, the signatory and the
    libraries, it returns a Verification and an error value. *)
Theorem Verify_never_panics `{env : Env} (fs : gmap string node) (s : Signatory)
    (chartpath sigpath : string) :
  ∃ ver err, result (Verify fs s chartpath sigpath) = Ret (ver, err).
Proof.
  unfold Verify, result, Verify_files, os_Stat.
  destruct (fs !! chartpath) as [[|r1 d1]|] eqn:Hc; cbn; try by eexists _, _.
  destruct (fs !! sigpath) as [[|r2 d2]|] eqn:Hs; cbn; try by eexists _, _.
  unfold decodeSignature, ioutil_ReadFile, os_Open. rewrite Hs.
  destruct r2; cbn; try by eexists _, _.
  destruct (clearsign_Decode d2) as [[block|] rest]; cbn; try by eexists _, _.
  destruct (openpgp_CheckDetachedSignature _ _ _) as [signer [e|]]; cbn;
    try by eexists _, _.
  destruct (sumArchive_returns fs chartpath) as (t & sum & err & ->). cbn.
  destruct err; cbn; try by eexists _, _.
  destruct (parseMessageBlock_returns (Plaintext block))
    as (t' & md & sc & perr & -> & Hsc). cbn.
  destruct perr; cbn; try by eexists _, _.
  destruct (Hsc eq_refl) as [sums ->]. cbn.
  destruct (Files sums !! filepath_Base chartpath) as [sha|]; cbn; try by eexists _, _.
  destruct (negb _); by eexists _, _.
Qed.

(** X2. ClearSign panics exactly when the signatory has no signing
    identity, given that the chart loader never returns a nil chart
    together with a nil error: the read of [s.Entity.PrivateKey] is the
    one dereference of ClearSign that can meet nil. *)
Theorem ClearSign_panics_iff_no_entity `{env : Env} (fs : gmap string node)
    (s : Signatory) (chartpath : string) :
  (∀ data, chartutil_LoadArchive data ≠ (None, None)) →
  (∃ reason, result (ClearSign fs s chartpath) = Panic reason)
  ↔ Signatory_Entity s = None.
Proof.
  intros Hload. unfold ClearSign, result.
  destruct (Signatory_Entity s) as [e|]; cbn; [|split; [done|by eexists]].
  split; [|done]. intros [reason H]. exfalso. revert H.
  destruct (Entity_PrivateKey e) as [key|]; cbn; [|done].
  unfold os_Stat. destruct (fs !! chartpath) as [[|r d]|]; cbn; try done.
  destruct (messageBlock_returns fs chartpath Hload) as (t & b & err & -> & Hb). cbn.
  destruct err; cbn; [done|].
  destruct (clearsign_Encode key defaultPGPConfig) as [header [e'|]]; cbn; [done|].
  destruct (Hb eq_refl) as [b' ->]. cbn.
  destruct (clearsign_Write _ _ _ _) as [body werr]. cbn.
  by destruct (clearsign_Close _ _ _) as [trailer cerr].
Qed.

(** X3. Verify returns no error only for a verified archive: both
    paths are regular files that can be read, the signature file holds
    a clear-signed block whose signature checks against the keyring,
    the sums of the signed block list the base name of the archive with
    the digest of the bytes the archive has now, and the Verification
    carries the signer of the check and that digest. *)
Theorem Verify_success_sound `{env : Env} (fs : gmap string node) (s : Signatory)
    (chartpath sigpath : string) (ver : Verification) :
  result (Verify fs s chartpath sigpath) = Ret (ver, None) →
  ∃ data sig rest block md sums,
    fs !! chartpath = Some (RegularFile true data) ∧
    fs !! sigpath = Some (RegularFile true sig) ∧
    clearsign_Decode sig = (Some block, rest) ∧
    openpgp_CheckDetachedSignature (KeyRing s) (Bytes block)
      (Body (ArmoredSignature block)) = (SignedBy ver, None) ∧
    result (parseMessageBlock (Plaintext block)) = Ret (md, Some sums, None) ∧
    Files sums !! filepath_Base chartpath = Some (archive_sum data) ∧
    FileHash ver = archive_sum data.
Proof.
  unfold Verify, result, Verify_files, os_Stat.
  destruct (fs !! chartpath) as [[|r1 d1]|] eqn:Hc; cbn; try done.
  destruct (fs !! sigpath) as [[|r2 d2]|] eqn:Hs; cbn; try done.
  unfold decodeSignature, ioutil_ReadFile, os_Open. rewrite Hs.
  destruct r2; cbn; try done.
  destruct (clearsign_Decode d2) as [[block|] rest] eqn:Hd; cbn; try done.
  destruct (openpgp_CheckDetachedSignature _ _ _) as [signer [e|]] eqn:Hk; cbn;
    try done.
  unfold sumArchive, os_Open. rewrite Hc. destruct r1; cbn; try done.
  destruct (parseMessageBlock (Plaintext block)) as [t [[[md sums] perr]|reason]] eqn:Hp;
    cbn; [|done].
  destruct perr; cbn; try done.
  destruct sums as [sums|]; cbn; [|done].
  destruct (Files sums !! filepath_Base chartpath) as [sha|] eqn:Hf; cbn; try done.
  destruct (String.eqb_spec sha ("sha256:" +:+ hex_EncodeToString (SHA256_Sum d1)))
    as [->|Hne]; cbn; [|done].
  intros [= <-]. exists d1, d2, rest, block, md, sums.
  rewrite Hp. by repeat split.
Qed.

(** X4. When the signature does not check, Verify returns the error of
    the check as it is and an empty Verification, and it stops there:
    the archive is not opened, not hashed, and the block is not parsed. *)
Theorem Verify_bad_signature `{env : Env} (fs : gmap string node) (s : Signatory)
    (chartpath sigpath sig rest : string) (block : clearsign_Block)
    (signer : option Entity) (err : error) :
  is_regular fs chartpath →
  fs !! sigpath = Some (RegularFile true sig) →
  clearsign_Decode sig = (Some block, rest) →
  openpgp_CheckDetachedSignature (KeyRing s) (Bytes block)
    (Body (ArmoredSignature block)) = (signer, Some err) →
  Verify fs s chartpath sigpath
  = ([ev_Stat chartpath; ev_Stat sigpath; ev_Open sigpath; ev_Read sigpath;
      ev_clearsign_Decode; ev_CheckDetachedSignature],
     Ret ({| SignedBy := None; FileHash := "" |}, Some err)).
Proof.
  intros (r & d & Hc) Hs Hd Hk. unfold Verify.
  rewrite (Verify_files_regular fs _ _ _ _ _ _ Hc Hs). cbn.
  rewrite (decodeSignature_ok fs _ _ _ _ Hs Hd). cbn.
  by rewrite Hk.
Qed.

(** X5. A signature file without clear-signed block makes Verify fail
    with the error that no signature block was found, wrapped as a
    failure to decode the signature; nothing is checked or hashed. *)
Theorem Verify_no_signature_block `{env : Env} (fs : gmap string node) (s : Signatory)
    (chartpath sigpath sig rest : string) :
  is_regular fs chartpath →
  fs !! sigpath = Some (RegularFile true sig) →
  clearsign_Decode sig = (None, rest) →
  Verify fs s chartpath sigpath
  = ([ev_Stat chartpath; ev_Stat sigpath; ev_Open sigpath; ev_Read sigpath;
      ev_clearsign_Decode],
     Ret ({| SignedBy := None; FileHash := "" |},
          Some (fmt_Errorf_wrap "failed to decode signature: %s"
                  (errors_New "signature block not found")))).
Proof.
  intros (r & d & Hc) Hs Hd. unfold Verify.
  rewrite (Verify_files_regular fs _ _ _ _ _ _ Hc Hs). cbn.
  unfold decodeSignature, ioutil_ReadFile, os_Open. rewrite Hs. cbn.
  unfold mbind, M_bind. cbn. by rewrite Hd.
Qed.

(** ** The parts of a message block *)

Lemma split_from_nonempty (sep : string) (s : string) (skip : nat) (cur : string) :
  ∃ part parts, split_from sep skip cur s = part :: parts.
Proof.
  revert skip cur. induction s as [|c s IH]; intros skip cur; cbn; [by eexists _, _|].
  destruct skip; [|apply IH].
  destruct (strings_HasPrefix _ _); [by eexists _, _ | apply IH].
Qed.

Lemma split_from_separator (s cur : string) :
  strings_Contains s separator = true →
  ∃ part0 part1 parts, split_from separator 0 cur s = part0 :: part1 :: parts.
Proof.
  revert cur. induction s as [|c s IH]; intros cur H; [discriminate|].
  cbn [strings_Contains] in H. cbn [split_from].
  destruct (strings_HasPrefix (String c s) separator).
  - destruct (split_from_nonempty separator s (String.length separator - 1) "")
      as (part & parts & ->). by eexists _, _, _.
  - cbn in H. by apply IH.
Qed.

(** X6. parseMessageBlock fails with the error that the block must
    have at least two parts exactly when the data does not contain the
    separator; it then unmarshals nothing and returns neither metadata
    nor sums. *)
Theorem parseMessageBlock_needs_separator `{env : Env} (data : string) :
  strings_Contains data separator = false
  ↔ parseMessageBlock data
    = ([], Ret (None, None,
                Some (errors_New "message block must have at least two parts"))).
Proof.
  unfold parseMessageBlock, bytes_Split. split.
  - intros H. by rewrite (split_from_no_separator _ _ H).
  - destruct (strings_Contains data separator) eqn:H; [|done].
    destruct (split_from_separator data "" H) as (p0 & p1 & l & ->). cbn.
    destruct (yaml_Unmarshal_Metadata p0) as [md [e|]]; cbn; [done|].
    by destruct (yaml_Unmarshal_SumCollection p1).
Qed.

(** X7. parseMessageBlock reads the first two parts only: whatever
    follows a second separator does not change what it returns. *)
Theorem parseMessageBlock_ignores_third_part `{env : Env} (mdb scb more : string) :
  strings_Contains mdb separator = false →
  strings_HasSuffix mdb (LF +:+ "...") = false →
  strings_Contains scb separator = false →
  strings_HasSuffix scb (LF +:+ "...") = false →
  parseMessageBlock (block_of mdb scb +:+ separator +:+ more)
  = parseMessageBlock (block_of mdb scb).
Proof.
  intros Hm Hms Hs Hss. unfold parseMessageBlock, block_of.
  rewrite (bytes_Split_block _ _ Hm Hms Hs). unfold bytes_Split.
  rewrite !append_assoc.
  rewrite (split_from_first_separator _ _ _ Hm Hms).
  rewrite (split_from_first_separator _ _ _ Hs Hss).
  reflexivity.
Qed.

(** ** What sumArchive returns *)

(** X8. sumArchive returns an error exactly when the file cannot be
    opened: the path does not exist, or it is a regular file the
    process may not read.  In every other case, a directory included,
    it returns a digest and no error. *)
Theorem sumArchive_error_iff `{env : Env} (fs : gmap string node) (filename : string) :
  (∃ sum err, result (sumArchive fs filename) = Ret (sum, Some err))
  ↔ fs !! filename = None ∨ ∃ data, fs !! filename = Some (RegularFile false data).
Proof.
  unfold sumArchive, os_Open, result.
  destruct (fs !! filename) as [[|[] d]|]; cbn; split;
    try (intros (? & ? & [=])); try (intros [[=]|[? [=]]]);
    try (by left); try (right; by eexists); by eexists _, _.
Qed.

(** ** The files a run reads *)

(** X9. Verify depends on the file system through its two paths only,
    and ClearSign through the path of the archive only: on two file
    systems that agree there, the runs are the same, call for call. *)
Theorem runs_read_their_paths_only `{env : Env} (fs1 fs2 : gmap string node)
    (s : Signatory) (chartpath sigpath : string) :
  fs1 !! chartpath = fs2 !! chartpath →
  (ClearSign fs1 s chartpath = ClearSign fs2 s chartpath) ∧
  (fs1 !! sigpath = fs2 !! sigpath →
   Verify fs1 s chartpath sigpath = Verify fs2 s chartpath sigpath).
Proof.
  intros Hc. split.
  - unfold ClearSign, messageBlock, sumArchive, chartutil_LoadFile, os_Stat, os_Open.
    by rewrite Hc.
  - intros Hs.
    unfold Verify, Verify_files, decodeSignature, ioutil_ReadFile, sumArchive,
      os_Stat, os_Open.
    by rewrite Hc, Hs.
Qed.

(** ** The identity NewFromKeyring selects *)

Lemma strings_HasPrefix_refl (s : string) : strings_HasPrefix s s = true.
Proof. induction s as [|c s IH]; cbn; [done|]. by rewrite Ascii.eqb_refl. Qed.

Lemma strings_Contains_refl (s : string) : strings_Contains s s = true.
Proof. destruct s; cbn; [done|]. by rewrite Ascii.eqb_refl, strings_HasPrefix_refl. Qed.

Lemma scanIdentities_found (id : string) (e : Entity) (names : list string)
    (candidate : option Entity) (vague : bool) :
  match scanIdentities id e names candidate vague with
  | inl e' => e' = e ∧ id ∈ names
  | inr (candidate', _) =>
      candidate' = candidate ∨
      candidate' = Some e ∧ ∃ n, n ∈ names ∧ strings_Contains n id = true
  end.
Proof.
  revert candidate vague. induction names as [|n names IH]; intros c v; cbn; [by left|].
  destruct (String.eqb_spec n id) as [->|Hne]; [split; [done|by left]|].
  destruct (strings_Contains n id) eqn:Hn.
  - specialize (IH (Some e) (match c with Some _ => true | None => v end)).
    destruct (scanIdentities _ _ _ _ _) as [e'|[c' v']].
    + destruct IH as [-> H]. split; [done|by right].
    + right. destruct IH as [->|[-> (n' & H1 & H2)]].
      * split; [done|]. exists n. split; [by left|done].
      * split; [done|]. exists n'. split; [by right|done].
  - specialize (IH c v). destruct (scanIdentities _ _ _ _ _) as [e'|[c' v']].
    + destruct IH as [-> H]. split; [done|by right].
    + destruct IH as [->|[-> (n' & H1 & H2)]]; [by left|].
      right. split; [done|]. exists n'. split; [by right|done].
Qed.

Lemma scanRing_found (id : string) (ring : EntityList)
    (candidate : option Entity) (vague : bool) :
  match scanRing id ring candidate vague with
  | inl e => e ∈ ring ∧ id ∈ Identities e
  | inr (candidate', _) =>
      candidate' = candidate ∨ ∃ e, candidate' = Some e ∧ e ∈ ring ∧ labelled id e
  end.
Proof.
  revert candidate vague. induction ring as [|e ring IH]; intros c v; cbn; [by left|].
  pose proof (scanIdentities_found id e (Identities e) c v) as He.
  destruct (scanIdentities _ _ _ _ _) as [e'|[c' v']].
  - destruct He as [-> H]. split; [by left|done].
  - specialize (IH c' v'). destruct (scanRing _ _ _ _) as [e'|[c'' v'']].
    + destruct IH as [H1 H2]. split; [by right|done].
    + destruct IH as [->|(e' & -> & H1 & H2)].
      * destruct He as [->|[-> H]]; [by left|].
        right. exists e. split; [done|]. split; [by left|done].
      * right. exists e'. split; [done|]. split; [by right|done].
Qed.

(** X10. Whenever NewFromKeyring returns a Signatory, its keyring is
    the whole keyring read from the file, and its signing identity, if
    it has one, is a key of that keyring with a label that contains the
    name asked for. *)
Theorem NewFromKeyring_selects_from_keyring `{env : Env} (fs : gmap string node)
    (keyringfile id : string) (s : Signatory) (err : option error) :
  result (NewFromKeyring fs keyringfile id) = Ret (Some s, err) →
  ∃ t ring,
    loadKeyRing fs keyringfile = (t, Ret (ring, None)) ∧
    KeyRing s = ring ∧
    ∀ e, Signatory_Entity s = Some e → e ∈ ring ∧ labelled id e.
Proof.
  unfold NewFromKeyring, result.
  destruct (loadKeyRing fs keyringfile) as [t [[ring [e|]]|reason]]; cbn; try done.
  destruct (String.eqb id ""); cbn.
  { intros [= <- <-]. by exists t, ring. }
  pose proof (scanRing_found id ring None false) as H.
  destruct (scanRing id ring None false) as [e|[c v]]; cbn.
  - intros [= <- <-]. exists t, ring. split; [done|split; [done|]].
    intros e' [= <-]. destruct H as [H1 H2]. split; [done|].
    exists id. split; [done|apply strings_Contains_refl].
  - destruct v; cbn; intros [= <- <-]; exists t, ring; (split; [done|split; [done|]]);
      [done|].
    intros e' [= ->]. destruct H as [[=]|(e & [= <-] & H1 & H2)]. done.
Qed.

Section LookupOne.
Context {env : Env}.
Variables (fs : gmap string node) (keyringfile id : string) (ring : EntityList).
Variable t : list event.
Hypothesis keyring_loads : loadKeyRing fs keyringfile = (t, Ret (ring, None)).
Hypothesis named : id ≠ "".

(** X11. When no label is the name itself and exactly one label of the
    keyring contains it, the key with that label becomes the signing
    identity and no error is returned. *)
Theorem NewFromKeyring_single_candidate :
  Forall (λ e, has_exact id e = false) ring →
  count_matching_labels id ring = 1 →
  ∃ e, e ∈ ring ∧ labelled id e ∧
       result (NewFromKeyring fs keyringfile id)
       = Ret (Some {| Signatory_Entity := Some e; KeyRing := ring |}, None).
Proof using keyring_loads named.
  intros Hr H1. unfold NewFromKeyring, result. rewrite keyring_loads. cbn.
  apply String.eqb_neq in named. rewrite named.
  pose proof (scanRing_found id ring None false) as Hf.
  destruct (scanRing_no_exact id ring None false Hr) as (c & v & Hscan & Hv & _ & Hc).
  rewrite Hscan in Hf |- *.
  destruct Hc as [e ->]; [lia|].
  destruct Hf as [[=]|(e' & [= <-] & Hin & Hl)].
  exists e. repeat split; try done.
  destruct v; [|done].
  destruct Hv as [Hv _]. destruct (Hv eq_refl) as [?|[?|[[? ?] _]]]; [done|lia|done].
Qed.

End LookupOne.

(** ** NewFromFiles *)

(** X12. NewFromFiles returns a Signatory only together with a nil
    error, and that Signatory has a signing identity (given that
    [openpgp.ReadEntity] returns an entity whenever it returns no
    error) and the keyring of the keyring file.  When the key cannot be
    loaded, the error is that of the key and the keyring file is not
    looked at: the run is the run of loadKey. *)
Theorem NewFromFiles_signatory `{env : Env} `{keys : KeyEnv} (fs : gmap string node)
    (keyfile keyringfile : string) :
  (∀ data e, openpgp_ReadEntity data = (e, None) → is_Some e) →
  (∀ s err,
     result (NewFromFiles fs keyfile keyringfile) = Ret (Some s, err) →
     err = None ∧ is_Some (Signatory_Entity s) ∧
     result (loadKey fs keyfile) = Ret (Signatory_Entity s, None) ∧
     result (loadKeyRing fs keyringfile) = Ret (KeyRing s, None)) ∧
  (∀ e err,
     result (loadKey fs keyfile) = Ret (e, Some err) →
     NewFromFiles fs keyfile keyringfile = (trace (loadKey fs keyfile), Ret (None, Some err))).
Proof.
  intros Hread. split.
  - intros s err. unfold NewFromFiles, result.
    assert (Hk : ∀ e, result (loadKey fs keyfile) = Ret (e, None) → is_Some e).
    { unfold loadKey, os_Open, result.
      destruct (fs !! keyfile) as [[|[] d]|]; cbn; try done.
      intros e. destruct (openpgp_ReadEntity d) as [e' err'] eqn:Hd. cbn.
      intros H. inversion H; subst. by apply (Hread d). }
    unfold result in Hk.
    destruct (loadKey fs keyfile) as [t1 [[e [kerr|]]|reason]];
      destruct (loadKeyRing fs keyringfile) as [t2 [[ring [rerr|]]|reason']];
      cbn; try done.
    intros [= <- <-]. cbn. repeat split; try done. by apply Hk.
  - intros e err. unfold NewFromFiles, result, trace.
    destruct (loadKey fs keyfile) as [t1 [[e' [kerr|]]|reason]];
      destruct (loadKeyRing fs keyringfile) as [t2 o]; cbn; try done.
    intros [= -> ->]. by rewrite app_nil_r.
Qed.

(** ** The command that packages and signs *)

Lemma length_append (a b : string) :
  String.length (a +:+ b) = String.length a + String.length b.
Proof. induction a as [|c a IH]; [done|]. rewrite append_cons. cbn. by rewrite IH. Qed.

Lemma prov_is_another_path (filename : string) : filename +:+ ".prov" ≠ filename.
Proof.
  intros H. apply (f_equal String.length) in H. rewrite length_append in H. cbn in H. lia.
Qed.

Lemma strings_HasPrefix_substring (n : nat) (s : string) :
  strings_HasPrefix s (substring 0 n s) = true.
Proof.
  revert n. induction s as [|c s IH]; intros [|n]; try done.
  cbn. by rewrite Ascii.eqb_refl, IH.
Qed.

(** What [ioutil.WriteFile] leaves: the file system as it was, or the
    file with a prefix of the data; all the data when there is no error. *)
Lemma ioutil_WriteFile_result (fs : gmap string node) (fault : option write_fault)
    (filename data : string) :
  ∃ fs' err,
    result (ioutil_WriteFile fs fault filename data) = Ret (fs', err) ∧
    (err = None → ∃ r, fs' = <[ filename := RegularFile r data ]> fs) ∧
    (∀ e, err = Some e →
       (∃ op no, e = os_PathError op filename no) ∧
       (fs' = fs ∨
        ∃ r written,
          strings_HasPrefix data written = true ∧
          fs' = <[ filename := RegularFile r written ]> fs)).
Proof.
  unfold ioutil_WriteFile, result. cbn.
  destruct (fs !! filename) as [[|r old]|], fault as [[no|n no|no]|];
    eexists _, _; (split; [reflexivity|]); (split; [intros [=]; by eexists|]);
    intros e [= <-]; (split; [by eexists _, _|]);
    first [ by left
          | right; eexists _, _; split; [|reflexivity];
            first [ apply strings_HasPrefix_substring | apply strings_HasPrefix_refl ] ].
Qed.

(** X13. [packageCmd.clearsign] touches one file, the one named after
    the archive with [.prov] added, and puts nothing into it but the
    text ClearSign returned for the signatory NewFromKeyring made.
    When it returns no error the file holds that text.  When it returns
    an error the file system is as it was, or the write failed on the
    way: the error is the one of the write, and the file holds what was
    written of the text before. *)
Theorem packageCmd_clearsign_writes_prov `{env : Env} `{cmdenv : CmdEnv}
    (fs fs' : gmap string node) (p : packageCmd) (filename : string)
    (err : option error) :
  result (packageCmd_clearsign fs p filename) = Ret (fs', err) →
  (err = None →
   ∃ signer sig r,
     result (NewFromKeyring fs (keyring p) (key p)) = Ret (Some signer, None) ∧
     result (ClearSign fs signer filename) = Ret (sig, None) ∧
     fs' = <[ filename +:+ ".prov" := RegularFile r sig ]> fs) ∧
  (is_Some err →
   fs' = fs ∨
   ∃ signer sig r written op no,
     result (NewFromKeyring fs (keyring p) (key p)) = Ret (Some signer, None) ∧
     result (ClearSign fs signer filename) = Ret (sig, None) ∧
     strings_HasPrefix sig written = true ∧
     fs' = <[ filename +:+ ".prov" := RegularFile r written ]> fs ∧
     err = Some (os_PathError op (filename +:+ ".prov") no)).
Proof.
  unfold packageCmd_clearsign, result.
  destruct (NewFromKeyring fs (keyring p) (key p)) as [t [[signer [e|]]|reason]]; cbn;
    try done.
  { intros [= <- <-]. split; [done|]. by left. }
  destruct signer as [signer|]; cbn; [|done].
  destruct (ClearSign fs signer filename) as [t' [[sig [e|]]|reason]] eqn:Hcs; cbn;
    try done.
  { intros [= <- <-]. split; [done|]. by left. }
  destruct (ioutil_WriteFile_result fs (disk_fault (filename +:+ ".prov") sig)
              (filename +:+ ".prov") sig) as (fs1 & err1 & Hw & Hok & Hfail).
  unfold result in Hw.
  assert (Hrun : ((if flagDebug then emit (ev_Fprintln sig) else mret tt) ≫= λ _ : (),
                    ioutil_WriteFile fs (disk_fault (filename +:+ ".prov") sig)
                      (filename +:+ ".prov") sig).2 = Ret (fs1, err1)).
  { by destruct flagDebug. }
  rewrite Hrun. intros [= <- <-]. split.
  - intros ->. destruct (Hok eq_refl) as [r ->]. exists signer, sig, r.
    by rewrite Hcs.
  - intros [e ->]. destruct (Hfail e eq_refl) as [(op & no & ->) [->|(r & written & Hp & ->)]];
      [by left|right].
    exists signer, sig, r, written, op, no. by rewrite Hcs.
Qed.

Section PackageThenVerify.
Context {env : Env} {cmdenv : CmdEnv}.
Variables (fs : gmap string node) (p : packageCmd) (s : Signatory) (e : Entity).
Variables (key_ : PrivateKey) (filename data : string) (chart : Chart).
Variables (mdb scb : string) (md' : Metadata).
Variables (header body trailer rest : string) (close_err : option error).
Variable block : clearsign_Block.

Hypothesis keyring_names_key :
  result (NewFromKeyring fs (keyring p) (key p)) = Ret (Some s, None).
Hypothesis archive_file : fs !! filename = Some (RegularFile true data).
Hypothesis archive_loads : chartutil_LoadArchive data = (Some chart, None).
Hypothesis identity : Signatory_Entity s = Some e.
Hypothesis private_key : Entity_PrivateKey e = Some key_.
Hypothesis metadata_marshals :
  yaml_Marshal_Metadata (Chart_Metadata chart) = (mdb, None).
Hypothesis sums_marshal :
  yaml_Marshal_SumCollection (archive_sums filename data) = (scb, None).
Hypothesis metadata_free : strings_Contains mdb separator = false.
Hypothesis metadata_lines : strings_HasSuffix mdb (LF +:+ "...") = false.
Hypothesis sums_free : strings_Contains scb separator = false.
Hypothesis metadata_unmarshals : yaml_Unmarshal_Metadata mdb = (md', None).
Hypothesis sums_unmarshal :
  yaml_Unmarshal_SumCollection scb = (archive_sums filename data, None).
Hypothesis encode_ok : clearsign_Encode key_ defaultPGPConfig = (header, None).
Hypothesis write_ok :
  clearsign_Write key_ defaultPGPConfig "" (block_of mdb scb) = (body, None).
Hypothesis close_ok :
  clearsign_Close key_ defaultPGPConfig (block_of mdb scb) = (trailer, close_err).
Hypothesis decode_ok :
  clearsign_Decode (header +:+ body +:+ trailer) = (Some block, rest).
Hypothesis plaintext_ok : Plaintext block = block_of mdb scb.
Hypothesis signature_ok :
  openpgp_CheckDetachedSignature (KeyRing s) (Bytes block)
    (Body (ArmoredSignature block)) = (Some e, None).

(** The signature file can be written and read: its path is free or
    names a file that can be read, and the write meets no fault. *)
Hypothesis signature_path :
  fs !! (filename +:+ ".prov") = None ∨
  ∃ old, fs !! (filename +:+ ".prov") = Some (RegularFile true old).
Hypothesis write_succeeds :
  disk_fault (filename +:+ ".prov") (header +:+ body +:+ trailer) = None.

(** X14. What [packageCmd.clearsign] writes is what Verify accepts:
    when the name of the key selects a key with a private part, the
    archive is a chart that can be read, the libraries read back what
    they wrote and the signature file is written without fault, the
    command returns no error, and Verify, run on the archive and on the
    file the command wrote, returns the signer and the digest of the
    archive. *)
Theorem package_signature_verifies :
  ∃ fs',
    result (packageCmd_clearsign fs p filename) = Ret (fs', None) ∧
    result (Verify fs' s filename (filename +:+ ".prov"))
    = Ret ({| SignedBy := Some e; FileHash := archive_sum data |}, None).
Proof using All.
  exists (<[ filename +:+ ".prov" := RegularFile true (header +:+ body +:+ trailer) ]> fs).
  split.
  - pose proof (ClearSign_signs fs s e key_ filename data chart mdb scb header body
                  trailer close_err archive_file archive_loads identity private_key
                  metadata_marshals sums_marshal encode_ok write_ok close_ok) as Hsign.
    unfold packageCmd_clearsign, result in *.
    destruct (NewFromKeyring fs (keyring p) (key p)) as [t o]. cbn in *. subst o. cbn.
    destruct (ClearSign fs s filename) as [t' o]. cbn in *. subst o. cbn.
    rewrite write_succeeds. unfold ioutil_WriteFile.
    destruct flagDebug, signature_path as [Hp|[old Hp]]; cbn; by rewrite Hp.
  - apply (Verify_verifies fs s e filename (filename +:+ ".prov") data mdb scb md'
             header body trailer rest block); try done.
    apply prov_is_another_path.
Qed.

End PackageThenVerify.

Section Command.
Context {env : Env} {cmdenv : CmdEnv}.
Variables (pkg : packageCmd) (fs : gmap string node).

(** X15. The command refuses to start without a chart path, and, when
    it is to sign, without the name of a key and without a keyring:
    it returns an error, calls nothing and leaves the files alone. *)
Theorem packageCmd_RunE_validates (args : list string) :
  args = [] ∨ (sign pkg = true ∧ (key pkg = "" ∨ keyring pkg = "")) →
  ∃ err, packageCmd_RunE pkg args fs = ([], Ret (fs, Some err)).
Proof.
  unfold packageCmd_RunE. intros [->|[Hs Hk]]; [by eexists|].
  destruct args as [|arg0 args]; [by eexists|]. rewrite Hs. cbn.
  destruct Hk as [->| ->]; cbn; [by eexists|].
  destruct (String.eqb (key pkg) ""); by eexists.
Qed.

(** X16. A chart directory whose name is not the name in its
    [Chart.yaml] is refused before anything is written: the command
    has resolved the path and loaded the directory, and nothing else. *)
Theorem packageCmd_run_name_mismatch (abs : string) (ch : Chart) :
  filepath_Abs (path pkg) = (abs, None) →
  chartutil_LoadDir fs abs = (Some ch, None) →
  filepath_Base abs ≠ Name (Chart_Metadata ch) →
  packageCmd_run pkg fs
  = ([call_Abs (path pkg); call_LoadDir abs],
     Ret (fs, Some (fmt_Errorf "directory name (%s) and Chart.yaml name (%s) must match"
                      [filepath_Base abs; Name (Chart_Metadata ch)]))).
Proof.
  intros Ha Hl Hn. unfold packageCmd_run. rewrite Ha. cbn. rewrite Hl. cbn.
  apply String.eqb_neq in Hn. by rewrite Hn.
Qed.

(** X17. Without the flag to sign, the command never enters package
    [provenance]: no keyring is read and nothing is signed. *)
Theorem packageCmd_run_without_sign :
  sign pkg = false →
  Forall (λ c, ∀ ev, c ≠ call_provenance ev) (packageCmd_run pkg fs).1.
Proof.
  intros Hs. unfold packageCmd_run, debugf. rewrite Hs.
  destruct (filepath_Abs (path pkg)) as [abs [e|]]; cbn; [by repeat constructor|].
  destruct (chartutil_LoadDir fs abs) as [[ch|] [e|]]; cbn; try by repeat constructor.
  destruct (negb _); cbn; [by repeat constructor|].
  destruct os_Getwd as [cwd [e|]]; cbn; [by repeat constructor|].
  destruct (chartutil_Save fs ch cwd) as [[name serr] fs1]. 
  destruct (save pkg); [destruct (repo_AddChartToLocalRepo fs1 ch localRepoDirectory)
                          as [[e|] fs2]|];
    destruct serr, flagDebug; cbn; by repeat constructor.
Qed.

(** X18. The error of [chartutil.Save] reaches the caller only when
    the command does not sign.  Once the archive is saved (or not) and
    the local repository is served, the command returns what
    [packageCmd.clearsign] returns for the name [chartutil.Save] gave
    when it is to sign, and the error of [chartutil.Save] otherwise. *)
Theorem packageCmd_run_save_error (abs cwd name : string) (ch : Chart)
    (serr : option error) (fs1 fs2 : gmap string node) :
  filepath_Abs (path pkg) = (abs, None) →
  chartutil_LoadDir fs abs = (Some ch, None) →
  filepath_Base abs = Name (Chart_Metadata ch) →
  os_Getwd = (cwd, None) →
  chartutil_Save fs ch cwd = (name, serr, fs1) →
  (if save pkg then repo_AddChartToLocalRepo fs1 ch localRepoDirectory
   else (None, fs1)) = (None, fs2) →
  (packageCmd_run pkg fs).2
  = if sign pkg then result (packageCmd_clearsign fs2 pkg name) else Ret (fs2, serr).
Proof.
  intros Ha Hl Hn Hw Hsave Hrepo. unfold packageCmd_run, debugf, result.
  rewrite Ha. cbn. rewrite Hl. cbn. rewrite Hn, String.eqb_refl. cbn.
  rewrite Hw. cbn. rewrite Hsave.
  destruct (save pkg); [rewrite Hrepo|injection Hrepo as <-];
    destruct serr, flagDebug, (sign pkg); reflexivity.
Qed.

End Command.

(** X24. With an empty name NewFromKeyring returns the keyring without
    signing identity and without error, and it does not look at the
    labels, every one of which contains the empty name. *)
Theorem NewFromKeyring_empty_name `{env : Env} (fs : gmap string node)
    (keyringfile : string) (ring : EntityList) (t : list event) :
  loadKeyRing fs keyringfile = (t, Ret (ring, None)) →
  NewFromKeyring fs keyringfile ""
  = (t, Ret (Some {| Signatory_Entity := None; KeyRing := ring |}, None)) ∧
  ∀ label, strings_Contains label "" = true.
Proof.
  intros H. split.
  - unfold NewFromKeyring. rewrite H. cbn. by rewrite app_nil_r.
  - intros n. by destruct n.
Qed.

(** X24 at the keyring of the reference environment. *)
Lemma NewFromKeyring_empty_name_demo :
  NewFromKeyring (env := demo) demo_fs "pubring.gpg" ""
  = ([ev_Open "pubring.gpg"; ev_Read "pubring.gpg"; ev_ReadKeyRing],
     Ret (Some {| Signatory_Entity := None; KeyRing := demo_ring |}, None)) ∧
  ∀ label, strings_Contains label "" = true.
Proof.
  apply (@NewFromKeyring_empty_name demo demo_fs "pubring.gpg" demo_ring
           [ev_Open "pubring.gpg"; ev_Read "pubring.gpg"; ev_ReadKeyRing]).
  vm_compute. reflexivity.
Defined.

(** ** The further properties at the files of the reference environment *)

Lemma demo_LoadArchive_contract (data : string) : demo_LoadArchive data ≠ (None, None).
Proof.
  unfold demo_LoadArchive.
  by destruct (bytes_Split data LF) as [|? [|? [|? [|? ?]]]].
Qed.

(** X2 in the reference environment, whose chart loader returns a chart
    or an error. *)
Lemma ClearSign_panics_iff_no_entity_demo :
  (∃ reason,
     result (ClearSign (env := demo) demo_fs
               {| Signatory_Entity := None; KeyRing := demo_ring |}
               "charts/mychart-0.1.0.tgz") = Panic reason)
  ↔ Signatory_Entity {| Signatory_Entity := None; KeyRing := demo_ring |} = None.
Proof.
  apply (@ClearSign_panics_iff_no_entity demo demo_fs
           {| Signatory_Entity := None; KeyRing := demo_ring |}
           "charts/mychart-0.1.0.tgz").
  apply demo_LoadArchive_contract.
Defined.

(** X3 at the signed archive. *)
Lemma Verify_success_sound_demo :
  ∃ data sig rest block md sums,
    demo_signed_fs !! "charts/mychart-0.1.0.tgz" = Some (RegularFile true data) ∧
    demo_signed_fs !! "charts/mychart-0.1.0.tgz.prov" = Some (RegularFile true sig) ∧
    demo_Decode sig = (Some block, rest) ∧
    demo_CheckDetachedSignature demo_ring (Bytes block) (Body (ArmoredSignature block))
    = (Some helm_testing, None) ∧
    result (parseMessageBlock (env := demo) (Plaintext block))
    = Ret (md, Some sums, None) ∧
    Files sums !! filepath_Base "charts/mychart-0.1.0.tgz"
    = Some (archive_sum (env := demo) data) ∧
    demo_digest = archive_sum (env := demo) data.
Proof.
  apply (@Verify_success_sound demo demo_signed_fs demo_signer
           "charts/mychart-0.1.0.tgz" "charts/mychart-0.1.0.tgz.prov"
           {| SignedBy := Some helm_testing; FileHash := demo_digest |}).
  vm_compute. reflexivity.
Defined.

(** X4 at a signature file whose sums were changed after signing. *)
Lemma Verify_bad_signature_demo :
  Verify (env := demo)
    (<[ "charts/mychart-0.1.0.tgz.prov" :=
          RegularFile true
            (demo_header
             +:+ block_of demo_metadata_yaml
                   ("files:" +:+ LF +:+ "  mychart-0.1.0.tgz: sha256:00" +:+ LF)
             +:+ demo_trailer) ]> demo_fs)
    demo_signer "charts/mychart-0.1.0.tgz" "charts/mychart-0.1.0.tgz.prov"
  = ([ev_Stat "charts/mychart-0.1.0.tgz"; ev_Stat "charts/mychart-0.1.0.tgz.prov";
      ev_Open "charts/mychart-0.1.0.tgz.prov"; ev_Read "charts/mychart-0.1.0.tgz.prov";
      ev_clearsign_Decode; ev_CheckDetachedSignature],
     Ret ({| SignedBy := None; FileHash := "" |},
          Some (lib_error "openpgp" "invalid signature: hash tag does not match"))).
Proof.
  eapply (@Verify_bad_signature demo _ demo_signer
            "charts/mychart-0.1.0.tgz" "charts/mychart-0.1.0.tgz.prov"
            (demo_header
             +:+ block_of demo_metadata_yaml
                   ("files:" +:+ LF +:+ "  mychart-0.1.0.tgz: sha256:00" +:+ LF)
             +:+ demo_trailer)
            ""
            {| Plaintext := block_of demo_metadata_yaml
                              ("files:" +:+ LF +:+ "  mychart-0.1.0.tgz: sha256:00" +:+ LF);
               Bytes := block_of demo_metadata_yaml
                          ("files:" +:+ LF +:+ "  mychart-0.1.0.tgz: sha256:00" +:+ LF);
               ArmoredSignature := ArmoredSignature demo_block |}
            None).
  - exists true, demo_chart. vm_compute. reflexivity.
  - vm_compute. reflexivity.
  - vm_compute. reflexivity.
  - vm_compute. reflexivity.
Defined.

(** X5 at an empty signature file. *)
Lemma Verify_no_signature_block_demo :
  Verify (env := demo)
    (<[ "charts/mychart-0.1.0.tgz.prov" := RegularFile true "" ]> demo_fs)
    demo_signer "charts/mychart-0.1.0.tgz" "charts/mychart-0.1.0.tgz.prov"
  = ([ev_Stat "charts/mychart-0.1.0.tgz"; ev_Stat "charts/mychart-0.1.0.tgz.prov";
      ev_Open "charts/mychart-0.1.0.tgz.prov"; ev_Read "charts/mychart-0.1.0.tgz.prov";
      ev_clearsign_Decode],
     Ret ({| SignedBy := None; FileHash := "" |},
          Some (fmt_Errorf_wrap "failed to decode signature: %s"
                  (errors_New "signature block not found")))).
Proof.
  apply (@Verify_no_signature_block demo _ demo_signer
           "charts/mychart-0.1.0.tgz" "charts/mychart-0.1.0.tgz.prov" "" "").
  - exists true, demo_chart. vm_compute. reflexivity.
  - vm_compute. reflexivity.
  - vm_compute. reflexivity.
Defined.

(** X7 at the block of the archive followed by another document. *)
Lemma parseMessageBlock_ignores_third_part_demo :
  parseMessageBlock (env := demo)
    (block_of demo_metadata_yaml demo_sums_yaml +:+ separator
     +:+ "files:" +:+ LF +:+ "  mychart-0.1.0.tgz: sha256:00" +:+ LF)
  = parseMessageBlock (env := demo) (block_of demo_metadata_yaml demo_sums_yaml).
Proof.
  apply (@parseMessageBlock_ignores_third_part demo demo_metadata_yaml demo_sums_yaml);
    vm_compute; reflexivity.
Defined.

(** X9 at the file system before and after the signature is stored. *)
Lemma runs_read_their_paths_only_demo :
  ClearSign (env := demo) demo_fs demo_signer "charts/mychart-0.1.0.tgz"
  = ClearSign (env := demo) demo_signed_fs demo_signer "charts/mychart-0.1.0.tgz" ∧
  Verify (env := demo) demo_fs demo_signer "charts/mychart-0.1.0.tgz" "pubring.gpg"
  = Verify (env := demo) demo_signed_fs demo_signer "charts/mychart-0.1.0.tgz"
      "pubring.gpg".
Proof.
  destruct (@runs_read_their_paths_only demo demo_fs demo_signed_fs demo_signer
              "charts/mychart-0.1.0.tgz" "pubring.gpg") as [H1 H2].
  - vm_compute. reflexivity.
  - split; [exact H1|]. apply H2. vm_compute. reflexivity.
Defined.

(** X10 at the keyring of the reference environment and a part of the
    label of its first key. *)
Lemma NewFromKeyring_selects_from_keyring_demo :
  ∃ t ring,
    loadKeyRing (env := demo) demo_fs "pubring.gpg" = (t, Ret (ring, None)) ∧
    KeyRing demo_signer = ring ∧
    ∀ e, Signatory_Entity demo_signer = Some e → e ∈ ring ∧ labelled "Helm Testing" e.
Proof.
  apply (@NewFromKeyring_selects_from_keyring demo demo_fs "pubring.gpg" "Helm Testing"
           demo_signer None).
  vm_compute. reflexivity.
Defined.

(** X11 at the same name: one label contains it. *)
Lemma NewFromKeyring_single_candidate_demo :
  ∃ e, e ∈ demo_ring ∧ labelled "Helm Testing" e ∧
       result (NewFromKeyring (env := demo) demo_fs "pubring.gpg" "Helm Testing")
       = Ret (Some {| Signatory_Entity := Some e; KeyRing := demo_ring |}, None).
Proof.
  apply (@NewFromKeyring_single_candidate demo demo_fs "pubring.gpg" "Helm Testing"
           demo_ring [ev_Open "pubring.gpg"; ev_Read "pubring.gpg"; ev_ReadKeyRing]).
  - vm_compute. reflexivity.
  - discriminate.
  - repeat constructor.
  - vm_compute. reflexivity.
Defined.

(** X12 at the key file and the keyring of the working directory. *)
Lemma NewFromFiles_signatory_demo :
  (∀ s err,
     result (NewFromFiles (env := demo) (keys := demo_keys_env) demo_work_fs
               "secring.gpg" "pubring.gpg") = Ret (Some s, err) →
     err = None ∧ is_Some (Signatory_Entity s) ∧
     result (loadKey (keys := demo_keys_env) demo_work_fs "secring.gpg")
     = Ret (Signatory_Entity s, None) ∧
     result (loadKeyRing (env := demo) demo_work_fs "pubring.gpg")
     = Ret (KeyRing s, None)) ∧
  (∀ e err,
     result (loadKey (keys := demo_keys_env) demo_work_fs "secring.gpg")
     = Ret (e, Some err) →
     NewFromFiles (env := demo) (keys := demo_keys_env) demo_work_fs
       "secring.gpg" "pubring.gpg"
     = (trace (loadKey (keys := demo_keys_env) demo_work_fs "secring.gpg"),
        Ret (None, Some err))).
Proof.
  apply (@NewFromFiles_signatory demo demo_keys_env demo_work_fs
           "secring.gpg" "pubring.gpg").
  intros data e. unfold openpgp_ReadEntity, demo_keys_env, demo_ReadEntity.
  destruct (demo_ReadKeyRing data) as [[|e' l] [err|]]; intros [= <-]. by eexists.
Defined.

(** X13 at the archive that cannot be opened, on a disk without room:
    the signature, which is empty, is printed, the signature file is
    made, and the command returns the error of the write. *)
Lemma packageCmd_clearsign_writes_prov_demo :
  (Some (os_PathError "write" ("charts/locked-0.1.0.tgz" +:+ ".prov") ENOSPC) = None →
   ∃ signer sig r,
     result (NewFromKeyring (env := demo) demo_fs "pubring.gpg" "helm-testing@helm.sh")
     = Ret (Some signer, None) ∧
     result (ClearSign (env := demo) demo_fs signer "charts/locked-0.1.0.tgz")
     = Ret (sig, None) ∧
     <[ "charts/locked-0.1.0.tgz.prov" := RegularFile true "" ]> demo_fs
     = <[ "charts/locked-0.1.0.tgz" +:+ ".prov" := RegularFile r sig ]> demo_fs) ∧
  (is_Some (Some (os_PathError "write" ("charts/locked-0.1.0.tgz" +:+ ".prov") ENOSPC)) →
   <[ "charts/locked-0.1.0.tgz.prov" := RegularFile true "" ]> demo_fs = demo_fs ∨
   ∃ signer sig r written op no,
     result (NewFromKeyring (env := demo) demo_fs "pubring.gpg" "helm-testing@helm.sh")
     = Ret (Some signer, None) ∧
     result (ClearSign (env := demo) demo_fs signer "charts/locked-0.1.0.tgz")
     = Ret (sig, None) ∧
     strings_HasPrefix sig written = true ∧
     <[ "charts/locked-0.1.0.tgz.prov" := RegularFile true "" ]> demo_fs
     = <[ "charts/locked-0.1.0.tgz" +:+ ".prov" := RegularFile r written ]> demo_fs ∧
     Some (os_PathError "write" ("charts/locked-0.1.0.tgz" +:+ ".prov") ENOSPC)
     = Some (os_PathError op ("charts/locked-0.1.0.tgz" +:+ ".prov") no)).
Proof.
  apply (@packageCmd_clearsign_writes_prov demo demo_full_disk demo_fs
           (<[ "charts/locked-0.1.0.tgz.prov" := RegularFile true "" ]> demo_fs)
           {| save := true; sign := true; path := "charts/locked";
              key := "helm-testing@helm.sh"; keyring := "pubring.gpg" |}
           "charts/locked-0.1.0.tgz"
           (Some (os_PathError "write" ("charts/locked-0.1.0.tgz" +:+ ".prov") ENOSPC))).
  vm_compute. reflexivity.
Defined.

(** X14 at the archive of the reference environment. *)
Lemma package_signature_verifies_demo :
  ∃ fs',
    result (packageCmd_clearsign (env := demo) (cmdenv := demo_cmd) demo_fs
              {| save := true; sign := true; path := "charts/mychart";
                 key := "helm-testing@helm.sh"; keyring := "pubring.gpg" |}
              "charts/mychart-0.1.0.tgz") = Ret (fs', None) ∧
    result (Verify (env := demo) fs' demo_signer "charts/mychart-0.1.0.tgz"
              ("charts/mychart-0.1.0.tgz" +:+ ".prov"))
    = Ret ({| SignedBy := Some helm_testing;
              FileHash := archive_sum (env := demo) demo_chart |}, None).
Proof.
  apply (@package_signature_verifies demo demo_cmd demo_fs
           {| save := true; sign := true; path := "charts/mychart";
              key := "helm-testing@helm.sh"; keyring := "pubring.gpg" |}
           demo_signer helm_testing
           {| PrivateKey_PublicKey := {| KeyId := "5E615389B53CA37F" |};
              Encrypted := false |}
           "charts/mychart-0.1.0.tgz" demo_chart
           {| Chart_Metadata := demo_metadata |}
           demo_metadata_yaml demo_sums_yaml demo_metadata
           demo_header (block_of demo_metadata_yaml demo_sums_yaml) demo_trailer
           "" None demo_block);
    first [ left; vm_compute; reflexivity | vm_compute; reflexivity ].
Defined.

(** X15 at a command that is to sign and was given no key. *)
Lemma packageCmd_RunE_validates_demo :
  ∃ err,
    packageCmd_RunE (env := demo) (cmdenv := demo_cmd)
      {| save := true; sign := true; path := ""; key := ""; keyring := "pubring.gpg" |}
      ["mychart"] demo_work_fs
    = ([], Ret (demo_work_fs, Some err)).
Proof.
  apply (@packageCmd_RunE_validates demo demo_cmd
           {| save := true; sign := true; path := ""; key := ""; keyring := "pubring.gpg" |}
           demo_work_fs ["mychart"]).
  right. split; [reflexivity|]. left. reflexivity.
Defined.

(** X16 at the directory [other], whose chart is named [mychart]. *)
Lemma packageCmd_run_name_mismatch_demo :
  packageCmd_run (env := demo) (cmdenv := demo_cmd)
    {| save := true; sign := false; path := "other"; key := ""; keyring := "" |}
    demo_work_fs
  = ([call_Abs "other"; call_LoadDir "/work/other"],
     Ret (demo_work_fs,
          Some (fmt_Errorf "directory name (%s) and Chart.yaml name (%s) must match"
                  [filepath_Base "/work/other"; "mychart"]))).
Proof.
  apply (@packageCmd_run_name_mismatch demo demo_cmd
           {| save := true; sign := false; path := "other"; key := ""; keyring := "" |}
           demo_work_fs "/work/other" {| Chart_Metadata := demo_metadata |}).
  - reflexivity.
  - vm_compute. reflexivity.
  - vm_compute. discriminate.
Defined.

(** X17 at the chart [mychart], packaged and not signed. *)
Lemma packageCmd_run_without_sign_demo :
  Forall (λ c, ∀ ev, c ≠ call_provenance ev)
    (packageCmd_run (env := demo) (cmdenv := demo_cmd)
       {| save := true; sign := false; path := "mychart"; key := ""; keyring := "" |}
       demo_work_fs).1.
Proof.
  apply (@packageCmd_run_without_sign demo demo_cmd
           {| save := true; sign := false; path := "mychart"; key := ""; keyring := "" |}
           demo_work_fs).
  reflexivity.
Defined.

(** X18 at the chart [mychart], saved to the working directory and
    signed. *)
Lemma packageCmd_run_save_error_demo :
  (packageCmd_run (env := demo) (cmdenv := demo_cmd)
     {| save := false; sign := true; path := "mychart"; key := "helm-testing@helm.sh";
        keyring := "pubring.gpg" |}
     demo_work_fs).2
  = result (packageCmd_clearsign (env := demo) (cmdenv := demo_cmd)
              (<[ demo_archive_name "/work" demo_metadata :=
                    RegularFile true (demo_archive demo_metadata) ]> demo_work_fs)
              {| save := false; sign := true; path := "mychart";
                 key := "helm-testing@helm.sh"; keyring := "pubring.gpg" |}
              (demo_archive_name "/work" demo_metadata)).
Proof.
  apply (@packageCmd_run_save_error demo demo_cmd
           {| save := false; sign := true; path := "mychart";
              key := "helm-testing@helm.sh"; keyring := "pubring.gpg" |}
           demo_work_fs "/work/mychart" "/work" (demo_archive_name "/work" demo_metadata)
           {| Chart_Metadata := demo_metadata |} None
           (<[ demo_archive_name "/work" demo_metadata :=
                 RegularFile true (demo_archive demo_metadata) ]> demo_work_fs)).
  - reflexivity.
  - vm_compute. reflexivity.
  - vm_compute. reflexivity.
  - reflexivity.
  - reflexivity.
  - reflexivity.
Defined.

(** X19 at a name that is a label of the second key. *)
Lemma NewFromKeyring_exact_demo :
  result (NewFromKeyring (env := demo) demo_fs "pubring.gpg"
            "Alice Foo <alice@example.com>")
  = Ret (Some {| Signatory_Entity := Some alice; KeyRing := demo_ring |}, None).
Proof.
  apply (@NewFromKeyring_exact demo demo_fs "pubring.gpg" "Alice Foo <alice@example.com>"
           demo_ring [ev_Open "pubring.gpg"; ev_Read "pubring.gpg"; ev_ReadKeyRing]
           ltac:(vm_compute; reflexivity) ltac:(discriminate)
           [helm_testing] [] alice).
  - reflexivity.
  - repeat constructor.
  - vm_compute. reflexivity.
Defined.

(** X20 at a name two labels contain. *)
Lemma NewFromKeyring_ambiguous_demo :
  (∃ s err,
     result (NewFromKeyring (env := demo) demo_fs "pubring.gpg" "Alice")
     = Ret (s, Some err))
  ↔ (2 ≤ count_matching_labels "Alice" demo_ring)%nat.
Proof.
  apply (@NewFromKeyring_ambiguous demo demo_fs "pubring.gpg" "Alice"
           demo_ring [ev_Open "pubring.gpg"; ev_Read "pubring.gpg"; ev_ReadKeyRing]
           ltac:(vm_compute; reflexivity) ltac:(discriminate)).
  repeat constructor.
Defined.

(** X21 at a name no label contains. *)
Lemma NewFromKeyring_no_candidate_demo :
  result (NewFromKeyring (env := demo) demo_fs "pubring.gpg" "nobody")
  = Ret (Some {| Signatory_Entity := None; KeyRing := demo_ring |}, None).
Proof.
  apply (@NewFromKeyring_no_candidate demo demo_fs "pubring.gpg" "nobody"
           demo_ring [ev_Open "pubring.gpg"; ev_Read "pubring.gpg"; ev_ReadKeyRing]
           ltac:(vm_compute; reflexivity) ltac:(discriminate)).
  - repeat constructor.
  - vm_compute. reflexivity.
Defined.

(** X22 at the two labels of the second key, in both orders. *)
Lemma scanIdentities_order_demo :
  scanIdentities "Alice" alice
    ["Alice Foo (work) <alice@example.org>"; "Alice Foo <alice@example.com>"] None false
  = scanIdentities "Alice" alice
      ["Alice Foo <alice@example.com>"; "Alice Foo (work) <alice@example.org>"] None false.
Proof.
  apply (scanIdentities_order "Alice" alice
           ["Alice Foo (work) <alice@example.org>"; "Alice Foo <alice@example.com>"]
           ["Alice Foo <alice@example.com>"; "Alice Foo (work) <alice@example.org>"]
           None false).
  apply perm_swap.
Defined.

(** X23 at the archive that cannot be opened. *)
Lemma ClearSign_drops_messageBlock_error_demo :
  ClearSign (env := demo) demo_fs demo_signer "charts/locked-0.1.0.tgz"
  = ([ev_Stat "charts/locked-0.1.0.tgz"; ev_Open "charts/locked-0.1.0.tgz"],
     Ret ("", None)).
Proof.
  apply (@ClearSign_drops_messageBlock_error demo demo_fs demo_signer helm_testing
           {| PrivateKey_PublicKey := {| KeyId := "5E615389B53CA37F" |};
              Encrypted := false |}
           "charts/locked-0.1.0.tgz" false demo_chart
           [ev_Open "charts/locked-0.1.0.tgz"] None
           (os_PathError "open" "charts/locked-0.1.0.tgz" EACCES));
    vm_compute; reflexivity.
Defined.
